(** * Employee CRUD application: a shallow embedding of the Django project

    The development follows the three source files of the [employee]
    application:

    - [models.py]  : the [Employee] table, its column types, its unique
                     e-mail index and its default ordering;
    - [views.py]   : the six request handlers;
    - [urls.py]    : the routing table.

    The handlers are written in a small state-and-exception monad over the
    relational store.  The object-relational layer that the handlers call
    ([Employee.objects.all], [Employee.objects.create], [get_object_or_404],
    [Model.save], [Model.delete]) is modelled on the declarations of
    [models.py]: an auto-incremented integer primary key, three [VARCHAR]
    columns, a unique e-mail column and a [DATE] column.

    Conventions of the model:

    - a string is a sequence of 8-bit character codes; strings are compared
      code by code, in the unique index and in the ordering alike;
    - a request is its method and its form data; a response is the template
      and the context it is rendered from, or the address it redirects to;
    - an exception that leaves a handler is kept as the result of the
      request: [Http404] is the "not found" answer, any other one is an
      unhandled server error;
    - the date column converts the submitted string when a row is written
      and refuses a string that is not a date in the "YYYY-MM-DD" format of
      [models.py]; the widths of the text columns are enforced or not,
      depending on the database, which the store records in a flag;
    - the application is mounted at the root of the site, so that "/" is
      the address of the listing. *)

From Stdlib Require Import ZArith String Ascii List Sorted Permutation Lia.
From stdpp Require Import base option list gmap fin_maps sorting strings.

Local Open Scope string_scope.
Local Open Scope Z_scope.

(** ** Python values used by the handlers *)

(** [request.POST.get(k)] yields [None] or a [str]; in a condition both
    [None] and the empty string are false, every other string is true. *)
Definition truthy (v : option string) : bool :=
  match v with
  | None => false
  | Some s => negb (String.eqb s "")
  end.

(** A [QueryDict] maps a key to the list of the values submitted under it;
    [get] returns the last one, and [None] when the key is absent (or its
    list is empty). *)
Definition QueryDict_get (d : gmap string (list string)) (key : string)
  : option string :=
  match d !! key with
  | None => None
  | Some values => last values
  end.

Record HttpRequest := mkRequest {
  method : string;
  POST : gmap string (list string)
}.

(** ** Calendar dates ([datetime.date]) and the [DateField] conversion *)

Record date := mkdate { year : Z; month : Z; day : Z }.

Definition is_leap (y : Z) : bool :=
  (y mod 4 =? 0) && (negb (y mod 100 =? 0) || (y mod 400 =? 0)).

Definition days_in_month (y m : Z) : Z :=
  if m =? 2 then (if is_leap y then 29 else 28)
  else if (m =? 4) || (m =? 6) || (m =? 9) || (m =? 11) then 30
  else 31.

(** [datetime.date(y, m, d)]: [None] stands for its [ValueError]. *)
Definition datetime_date (y m d : Z) : option date :=
  if (1 <=? y) && (y <=? 9999) && (1 <=? m) && (m <=? 12)
     && (1 <=? d) && (d <=? days_in_month y m)
  then Some (mkdate y m d) else None.

Definition digit (c : ascii) : option Z :=
  let n := Z.of_N (N_of_ascii c) in
  if (48 <=? n) && (n <=? 57) then Some (n - 48) else None.

(** The end-of-pattern anchor of a Python regular expression: the end of
    the string, or just before a final newline. *)
Definition at_end (s : string) : bool :=
  match s with
  | EmptyString => true
  | String c EmptyString => Ascii.eqb c "010"%char
  | _ => false
  end.

(** One or two digits, as many as there are, and the rest of the string. *)
Definition digits_1_2 (s : string) : option (Z * string) :=
  match s with
  | String a rest =>
      match digit a with
      | None => None
      | Some x =>
          match rest with
          | String b rest' =>
              match digit b with
              | Some y => Some (10 * x + y, rest')
              | None => Some (x, rest)
              end
          | EmptyString => Some (x, rest)
          end
      end
  | EmptyString => None
  end.

(** The pattern [(\d{4})-(\d{1,2})-(\d{1,2})$] of the date parser: the
    "YYYY-MM-DD" format named in [models.py]. *)
Definition date_re_match (value : string) : option (Z * Z * Z) :=
  match value with
  | String y1 (String y2 (String y3 (String y4 (String dash1 rest)))) =>
      match digit y1, digit y2, digit y3, digit y4 with
      | Some a, Some b, Some c, Some d =>
          if Ascii.eqb dash1 "-"%char then
            match digits_1_2 rest with
            | Some (m, String dash2 rest') =>
                if Ascii.eqb dash2 "-"%char then
                  match digits_1_2 rest' with
                  | Some (dd, tail) =>
                      if at_end tail
                      then Some (1000 * a + 100 * b + 10 * c + d, m, dd)
                      else None
                  | None => None
                  end
                else None
            | _ => None
            end
          else None
      | _, _, _, _ => None
      end
  | _ => None
  end.

(** [DateField.to_python] on a string: the parsed date, or [None] where the
    field raises [ValidationError] (no match, or a match that is not a
    calendar date).  The field applies it to the value it is given whenever
    a row is written. *)
Definition DateField_to_python (value : string) : option date :=
  match date_re_match value with
  | Some (y, m, d) => datetime_date y m d
  | None => None
  end.

(** ** [models.py]: the Employee table *)

Module models.

(** The five columns of [class Employee(models.Model)]:
    [first_name = CharField(max_length=30)],
    [last_name = CharField(max_length=30)],
    [email = EmailField(unique=True)] (a [VARCHAR(254)]),
    [position = CharField(max_length=50)] and [hire_date = DateField()]. *)
Record Row := mkRow {
  first_name : string;
  last_name : string;
  email : string;
  position : string;
  hire_date : date
}.

(** A model instance: a row together with its primary key. *)
Record Employee := mkEmployee { id : Z; row : Row }.

(** [Employee.__str__]. *)
Definition __str__ (self : Employee) : string :=
  first_name (row self) ++ " " ++ last_name (row self).

(** The database: the table, keyed by primary key; the last value handed
    out by the auto-increment sequence; and whether the backend enforces the
    declared [VARCHAR] widths (it depends on the configured database, which
    is not part of the application). *)
Record Store := mkStore {
  table : gmap Z Row;
  sequence : Z;
  varchar_enforced : bool
}.

Definition empty_store (strict : bool) : Store := mkStore ∅ 0 strict.

Inductive Exception :=
  | Http404
  | ValidationError
  | DataError
  | IntegrityError.

Inductive Result (A : Type) :=
  | Return (a : A)
  | Raise (e : Exception).
Arguments Return {A} a.
Arguments Raise {A} e.

(** A computation of a request: it reads and writes the store, and ends
    with a value or with an exception. *)
Definition View (A : Type) : Type := Store → Result A * Store.

#[global] Instance View_ret : MRet View := λ A a s, (Return a, s).
#[global] Instance View_bind : MBind View := λ A B f m s,
  match m s with
  | (Return a, s') => f a s'
  | (Raise e, s') => (Raise e, s')
  end.
Definition raise {A} (e : Exception) : View A := λ s, (Raise e, s).
Definition get_store : View Store := λ s, (Return s, s).
Definition put_table (t : gmap Z Row) : View unit :=
  λ s, (Return tt, mkStore t (sequence s) (varchar_enforced s)).
Definition next_id : View Z := λ s,
  (Return (sequence s + 1),
   mkStore (table s) (sequence s + 1) (varchar_enforced s)).

(** [Meta.ordering = ['last_name', 'first_name']]: ascending by last name,
    ties broken by first name; strings compare character by character. *)
Definition ordering_leb (a b : Employee) : bool :=
  match String.compare (last_name (row a)) (last_name (row b)) with
  | Lt => true
  | Gt => false
  | Eq =>
      match String.compare (first_name (row a)) (first_name (row b)) with
      | Gt => false
      | _ => true
      end
  end.
Definition ordering (a b : Employee) : Prop := ordering_leb a b = true.
#[global] Instance ordering_dec : RelDecision ordering :=
  λ a b, decide (ordering_leb a b = true).

Definition instances (t : gmap Z Row) : list Employee :=
  (λ kv, mkEmployee kv.1 kv.2) <$> map_to_list t.

(** [Employee.objects.all()], evaluated: every row, in the default order. *)
Definition objects_all : View (list Employee) :=
  s ← get_store;
  mret (merge_sort ordering (instances (table s))).

(** The values a handler passes for the five columns: what
    [request.POST.get] returned for each. *)
Record Values := mkValues {
  v_first_name : option string;
  v_last_name : option string;
  v_email : option string;
  v_position : option string;
  v_hire_date : option string
}.

(** Conversion of the values to column values when a row is written: the
    date column parses its string and raises [ValidationError] when it is
    not a date; after that a missing value violates [NOT NULL]. *)
Definition prepare (v : Values) : View Row :=
  match v_hire_date v with
  | Some text =>
      match DateField_to_python text with
      | None => raise ValidationError
      | Some d =>
          match v_first_name v, v_last_name v, v_email v, v_position v with
          | Some fn, Some ln, Some em, Some pos =>
              mret (mkRow fn ln em pos d)
          | _, _, _, _ => raise IntegrityError
          end
      end
  | None => raise IntegrityError
  end.

(** The declared widths of the text columns. *)
Definition fits_columns (r : Row) : bool :=
  (Z.of_nat (String.length (first_name r)) <=? 30)
  && (Z.of_nat (String.length (last_name r)) <=? 30)
  && (Z.of_nat (String.length (email r)) <=? 254)
  && (Z.of_nat (String.length (position r)) <=? 50).

Definition check_widths (r : Row) : View unit :=
  s ← get_store;
  if varchar_enforced s && negb (fits_columns r)
  then raise DataError else mret tt.

(** The unique index on [email]: is the address used by a row of [t]? *)
Definition email_taken (t : gmap Z Row) (address : string) : Prop :=
  map_Exists (λ _ r, email r = address) t.

(** [Employee.objects.create(...)]: one [INSERT] under a fresh key. *)
Definition objects_create (v : Values) : View Employee :=
  r ← prepare v;
  _ ← check_widths r;
  s ← get_store;
  if bool_decide (email_taken (table s) (email r))
  then raise IntegrityError
  else
    pk ← next_id;
    _ ← put_table (<[pk := r]> (table s));
    mret (mkEmployee pk r).

(** [Employee.objects.get(id=id)]; [None] stands for [DoesNotExist]. *)
Definition objects_get (pk : Z) : View (option Employee) :=
  s ← get_store;
  mret (mkEmployee pk <$> table s !! pk).

(** [employee.save()] after the five attributes were assigned: one
    [UPDATE] of the row with the instance's key; the unique index is
    checked against the other rows. *)
Definition save (self : Employee) (v : Values) : View unit :=
  r ← prepare v;
  _ ← check_widths r;
  s ← get_store;
  if bool_decide (email_taken (base.delete (id self) (table s)) (email r))
  then raise IntegrityError
  else put_table (<[id self := r]> (table s)).

(** [employee.delete()]: one [DELETE] by key. *)
Definition Employee_delete (self : Employee) : View unit :=
  s ← get_store;
  put_table (base.delete (id self) (table s)).

End models.

(** ** [django.shortcuts]: [render], [redirect], [get_object_or_404] *)

Module shortcuts.
Import models.

(** What a template is given: the listing receives the instances, the
    update form the instance being edited. *)
Inductive ContextValue :=
  | instance_list (l : list Employee)
  | instance (e : Employee).

Definition Context : Type := list (string * ContextValue).

(** A response is kept as the template and context it is rendered from, or
    as the address it redirects to. *)
Inductive HttpResponse :=
  | TemplateResponse (template_name : string) (context : Context)
  | HttpResponseRedirect (url : string).

Definition render (request : HttpRequest) (template_name : string)
  (context : Context) : HttpResponse :=
  TemplateResponse template_name context.

Definition redirect (to : string) : HttpResponse := HttpResponseRedirect to.

Definition get_object_or_404 (pk : Z) : View Employee :=
  found ← objects_get pk;
  match found with
  | Some employee => mret employee
  | None => raise Http404
  end.

(** The status line the client receives: an [Http404] becomes "not found",
    any other exception is unhandled and becomes a server error. *)
Definition status_code (r : Result HttpResponse) : Z :=
  match r with
  | Return (TemplateResponse _ _) => 200
  | Return (HttpResponseRedirect _) => 302
  | Raise Http404 => 404
  | Raise _ => 500
  end.

End shortcuts.

(** ** [views.py]: the six handlers *)

Module views.
Import models shortcuts.

Definition home (request : HttpRequest) : View HttpResponse :=
  employees ← objects_all;
  mret (render request "home.html" [("employees", instance_list employees)]).

Definition create_view (request : HttpRequest) : View HttpResponse :=
  mret (render request "create.html" []).

Definition create_employee (request : HttpRequest) : View HttpResponse :=
  if String.eqb (method request) "POST" then
    let first_name := QueryDict_get (POST request) "first_name" in
    let last_name := QueryDict_get (POST request) "last_name" in
    let email := QueryDict_get (POST request) "email" in
    let position := QueryDict_get (POST request) "position" in
    let hire_date := QueryDict_get (POST request) "hire_date" in
    if truthy first_name && truthy last_name && truthy email
       && truthy position && truthy hire_date
    then
      _ ← objects_create
            (mkValues first_name last_name email position hire_date);
      mret (redirect "/")
    else mret (render request "create.html" [])
  else mret (render request "create.html" []).

Definition update_view (request : HttpRequest) (id : Z)
  : View HttpResponse :=
  employee ← get_object_or_404 id;
  mret (render request "update.html" [("employee", instance employee)]).

Definition update_employee (request : HttpRequest) (id : Z)
  : View HttpResponse :=
  employee ← get_object_or_404 id;
  if String.eqb (method request) "POST" then
    let first_name := QueryDict_get (POST request) "first_name" in
    let last_name := QueryDict_get (POST request) "last_name" in
    let email := QueryDict_get (POST request) "email" in
    let position := QueryDict_get (POST request) "position" in
    let hire_date := QueryDict_get (POST request) "hire_date" in
    if truthy first_name && truthy last_name && truthy email
       && truthy position && truthy hire_date
    then
      _ ← save employee
            (mkValues first_name last_name email position hire_date);
      mret (redirect "/")
    else
      mret (render request "update.html" [("employee", instance employee)])
  else
    mret (render request "update.html" [("employee", instance employee)]).

Definition delete (request : HttpRequest) (id : Z) : View HttpResponse :=
  employee ← get_object_or_404 id;
  _ ← Employee_delete employee;
  mret (redirect "/").

End views.

(** ** [urls.py]: the routing table *)

Module urls.
Import models shortcuts.

(** A route is a literal prefix, followed for the last three by the
    [<int:id>/] converter. *)
Inductive Target :=
  | plain (view : HttpRequest → View HttpResponse)
  | with_id (view : HttpRequest → Z → View HttpResponse).

Definition urlpatterns : list (string * Target) :=
  [ ("", plain views.home);
    ("create/", plain views.create_view);
    ("create_employee/", plain views.create_employee);
    ("update/", with_id views.update_view);
    ("update_employee/", with_id views.update_employee);
    ("delete/", with_id views.delete) ].

Fixpoint strip_prefix (p s : string) : option string :=
  match p with
  | EmptyString => Some s
  | String a p' =>
      match s with
      | String b s' => if Ascii.eqb a b then strip_prefix p' s' else None
      | EmptyString => None
      end
  end.

(** The [int] converter: a non-empty run of decimal digits, read as a
    number, and what follows it. *)
Fixpoint read_digits (acc : option Z) (s : string) : option Z * string :=
  match s with
  | String c s' =>
      match digit c with
      | Some d => read_digits (Some (10 * default 0 acc + d)) s'
      | None => (acc, s)
      end
  | EmptyString => (acc, s)
  end.

Definition match_route (route : string * Target) (path : string)
  : option (HttpRequest → View HttpResponse) :=
  match strip_prefix route.1 path with
  | None => None
  | Some rest =>
      match route.2 with
      | plain view => if String.eqb rest "" then Some view else None
      | with_id view =>
          match read_digits None rest with
          | (Some n, "/") => Some (λ request, view request n)
          | _ => None
          end
      end
  end.

Fixpoint first_match (routes : list (string * Target)) (path : string)
  : option (HttpRequest → View HttpResponse) :=
  match routes with
  | [] => None
  | route :: routes' =>
      match match_route route path with
      | Some view => Some view
      | None => first_match routes' path
      end
  end.

(** Resolution of a request path: the leading slash is dropped and the
    first matching route wins. *)
Definition resolve (path : string) : option (HttpRequest → View HttpResponse) :=
  match path with
  | String c rest =>
      if Ascii.eqb c "/"%char then first_match urlpatterns rest else None
  | EmptyString => None
  end.

(** A request to [path]: the handler the path resolves to is run; a path
    that no route matches is "not found". *)
Definition serve (path : string) (request : HttpRequest) : View HttpResponse :=
  match resolve path with
  | Some view => view request
  | None => raise Http404
  end.

End urls.

Import models shortcuts.

(** ** Vocabulary of the statements *)

(** A submitted value is missing or empty. *)
Definition missing_or_empty (v : option string) : Prop :=
  v = None ∨ v = Some "".

(** The five values a request submits. *)
Definition submitted (request : HttpRequest) : Values :=
  mkValues (QueryDict_get (POST request) "first_name")
           (QueryDict_get (POST request) "last_name")
           (QueryDict_get (POST request) "email")
           (QueryDict_get (POST request) "position")
           (QueryDict_get (POST request) "hire_date").

(** All five values are present and non-empty: [fn], [ln], [em], [pos] and
    [hd] are the submitted strings. *)
Definition submits (request : HttpRequest) (fn ln em pos hd : string) : Prop :=
  submitted request = mkValues (Some fn) (Some ln) (Some em) (Some pos) (Some hd)
  ∧ fn ≠ "" ∧ ln ≠ "" ∧ em ≠ "" ∧ pos ≠ "" ∧ hd ≠ "".

(** At least one of the five values is missing or empty. *)
Definition incomplete (request : HttpRequest) : Prop :=
  missing_or_empty (v_first_name (submitted request))
  ∨ missing_or_empty (v_last_name (submitted request))
  ∨ missing_or_empty (v_email (submitted request))
  ∨ missing_or_empty (v_position (submitted request))
  ∨ missing_or_empty (v_hire_date (submitted request)).

(** Lexicographic order on strings, by character code. *)
Definition str_lt (a b : string) : Prop := String.compare a b = Lt.
Definition str_le (a b : string) : Prop := String.compare a b ≠ Gt.

(** Ascending by last name, then by first name. *)
Definition by_last_then_first (a b : Employee) : Prop :=
  str_lt (last_name (row a)) (last_name (row b))
  ∨ (last_name (row a) = last_name (row b)
     ∧ str_le (first_name (row a)) (first_name (row b))).

(** Every key of the table was handed out by the sequence. *)
Definition keys_issued (s : Store) : Prop :=
  map_Forall (λ k _, k ≤ sequence s) (table s).

(** No two rows share an e-mail address. *)
Definition emails_unique (s : Store) : Prop :=
  ∀ i j ri rj,
    table s !! i = Some ri → table s !! j = Some rj →
    email ri = email rj → i = j.

(** The states of the store that requests can produce, starting from the
    empty database of either kind of backend. *)
Inductive reachable : Store → Prop :=
  | reachable_empty strict : reachable (empty_store strict)
  | reachable_request s path view request :
      reachable s → urls.resolve path = Some view →
      reachable (view request s).2.

(** A non-empty string of white space only. *)
Definition is_space (c : ascii) : bool :=
  let n := N_of_ascii c in
  ((9 <=? n) && (n <=? 13) || (n =? 32))%N.

Fixpoint all_space (s : string) : bool :=
  match s with
  | EmptyString => true
  | String c s' => is_space c && all_space s'
  end.

Definition blank (s : string) : Prop := s ≠ "" ∧ all_space s = true.

Definition all_given (v : Values) : bool :=
  truthy (v_first_name v) && truthy (v_last_name v) && truthy (v_email v)
  && truthy (v_position v) && truthy (v_hire_date v).

(** The store after an [INSERT] of [r]. *)
Definition inserted (s : Store) (r : Row) : Store :=
  mkStore (<[sequence s + 1 := r]> (table s)) (sequence s + 1)
          (varchar_enforced s).

(** The store after the table was replaced by [t]. *)
Definition with_table (s : Store) (t : gmap Z Row) : Store :=
  mkStore t (sequence s) (varchar_enforced s).

(** The backend accepts the widths of [r]. *)
Definition widths_accepted (s : Store) (r : Row) : Prop :=
  varchar_enforced s = true → fits_columns r = true.

(** The four effects a handler can have: none, one [INSERT] of a row whose
    address was free, one [UPDATE] of an existing row to an address no other
    row has, one [DELETE]. *)
Inductive effect (s : Store) : Store → Prop :=
  | effect_none : effect s s
  | effect_insert r :
      ¬ email_taken (table s) (email r) → effect s (inserted s r)
  | effect_update pk r :
      is_Some (table s !! pk) →
      ¬ email_taken (base.delete pk (table s)) (email r) →
      effect s (with_table s (<[pk := r]> (table s)))
  | effect_delete pk :
      effect s (with_table s (base.delete pk (table s))).

(** A string of decimal digits, and the number it denotes ([int(value)],
    the conversion of the [int] path converter); leading zeros are allowed. *)
Fixpoint all_digits (s : string) : bool :=
  match s with
  | EmptyString => true
  | String c s' => bool_decide (is_Some (digit c)) && all_digits s'
  end.

Fixpoint int_from (acc : Z) (s : string) : Z :=
  match s with
  | EmptyString => acc
  | String c s' => int_from (10 * acc + default 0 (digit c)) s'
  end.

Definition int (s : string) : Z := int_from 0 s.

(** A calendar date: what [datetime.date] accepts. *)
Definition calendar_date (d : date) : Prop :=
  1 ≤ year d ≤ 9999 ∧ 1 ≤ month d ≤ 12
  ∧ 1 ≤ day d ≤ days_in_month (year d) (month d).

(** A row as the handlers write it: no text column is empty and the hire
    date is a calendar date. *)
Definition well_formed (r : Row) : Prop :=
  first_name r ≠ "" ∧ last_name r ≠ "" ∧ email r ≠ "" ∧ position r ≠ ""
  ∧ calendar_date (hire_date r).

(** The row that a complete submission of [request] is stored as. *)
Definition stored_as (request : HttpRequest) (r : Row) : Prop :=
  ∃ hd, submits request (first_name r) (last_name r) (email r) (position r) hd
        ∧ DateField_to_python hd = Some (hire_date r).

(** The string has no space in it. *)
Fixpoint no_space (s : string) : bool :=
  match s with
  | EmptyString => true
  | String c s' => negb (Ascii.eqb c " "%char) && no_space s'
  end.

(** ** Sample requests and stores *)

Definition form (fn ln em pos hd : string) : gmap string (list string) :=
  list_to_map [("first_name", [fn]); ("last_name", [ln]); ("email", [em]);
               ("position", [pos]); ("hire_date", [hd])].

Definition post (fn ln em pos hd : string) : HttpRequest :=
  mkRequest "POST" (form fn ln em pos hd).

Definition get : HttpRequest := mkRequest "GET" ∅.

Definition ada_row : Row :=
  mkRow "Ada" "Lovelace" "ada@x.com" "Engineer" (mkdate 1975 1 1).
Definition alan_row : Row :=
  mkRow "Alan" "Turing" "alan@x.com" "Fellow" (mkdate 1936 5 28).

(** The store after Ada, then Alan, were created in an empty database. *)
Definition one_row (strict : bool) : Store :=
  inserted (empty_store strict) ada_row.
Definition two_rows (strict : bool) : Store :=
  inserted (one_row strict) alan_row.

(** * Lemmas *)

(** Closes a goal of the [_cases] lemmas in the branch where an exception
    other than [Http404] is raised. *)
Ltac raises := left; eexists; split; [reflexivity | discriminate].

(** ** The order of the listing *)

Section string_order.

Lemma ascii_compare_refl a : Ascii.compare a a = Eq.
Proof. unfold Ascii.compare. apply N.compare_refl. Qed.

Lemma string_compare_refl s : String.compare s s = Eq.
Proof.
  induction s as [|a s IH]; simpl; [done|].
  by rewrite ascii_compare_refl.
Qed.

Lemma ascii_compare_eq a b : Ascii.compare a b = Eq → a = b.
Proof. apply Ascii.compare_eq_iff. Qed.

Lemma ascii_compare_lt_trans a b c :
  Ascii.compare a b = Lt → Ascii.compare b c = Lt → Ascii.compare a c = Lt.
Proof.
  unfold Ascii.compare. rewrite !N.compare_lt_iff. lia.
Qed.

Lemma string_compare_lt_trans s1 : ∀ s2 s3,
  String.compare s1 s2 = Lt → String.compare s2 s3 = Lt →
  String.compare s1 s3 = Lt.
Proof.
  induction s1 as [|a s1 IH]; intros [|b s2] [|c s3]; simpl; try done.
  destruct (Ascii.compare a b) eqn:Hab; try done;
    destruct (Ascii.compare b c) eqn:Hbc; try done; intros H12 H23.
  - apply ascii_compare_eq in Hab, Hbc. subst.
    rewrite ascii_compare_refl. eauto.
  - apply ascii_compare_eq in Hab. subst. by rewrite Hbc.
  - apply ascii_compare_eq in Hbc. subst. by rewrite Hab.
  - by rewrite (ascii_compare_lt_trans a b c).
Qed.

Lemma string_compare_gt_lt a b :
  String.compare a b = Gt ↔ String.compare b a = Lt.
Proof.
  rewrite (String.compare_antisym b a).
  destruct (String.compare a b); simpl; split; congruence.
Qed.

Lemma str_le_total a b : str_le a b ∨ str_le b a.
Proof.
  unfold str_le. rewrite (String.compare_antisym a b).
  destruct (String.compare b a); simpl; auto.
Qed.

Lemma str_le_trans a b c : str_le a b → str_le b c → str_le a c.
Proof.
  unfold str_le. intros Hab Hbc.
  destruct (String.compare a b) eqn:E1; [| |done].
  - apply String.compare_eq_iff in E1. by subst.
  - destruct (String.compare b c) eqn:E2; [| |done].
    + apply String.compare_eq_iff in E2. subst. by rewrite E1.
    + by rewrite (string_compare_lt_trans a b c).
Qed.

End string_order.

Section listing_order.

Lemma ordering_spec a b : ordering a b ↔ by_last_then_first a b.
Proof.
  unfold ordering, ordering_leb, by_last_then_first, str_lt, str_le.
  destruct (String.compare (last_name (row a)) (last_name (row b))) eqn:E.
  - apply String.compare_eq_iff in E.
    destruct (String.compare (first_name (row a)) (first_name (row b)));
      split; try done; try (right; done).
    intros [?|[_ ?]]; done.
  - split; [by left | done].
  - split; [done|]. intros [?|[Heq _]]; [done|].
    rewrite Heq, string_compare_refl in E. done.
Qed.

#[global] Instance ordering_total : Total ordering.
Proof.
  intros a b. rewrite !ordering_spec. unfold by_last_then_first, str_lt.
  destruct (String.compare (last_name (row a)) (last_name (row b))) eqn:E.
  - apply String.compare_eq_iff in E.
    destruct (str_le_total (first_name (row a)) (first_name (row b)));
      [left | right]; right; done.
  - left. by left.
  - right. left. by apply string_compare_gt_lt.
Qed.

#[global] Instance ordering_trans : Transitive ordering.
Proof.
  intros a b c. rewrite !ordering_spec. unfold by_last_then_first, str_lt.
  intros [Hab|[Hab Fab]] [Hbc|[Hbc Fbc]].
  - left. eauto using string_compare_lt_trans.
  - left. by rewrite <- Hbc.
  - left. by rewrite Hab.
  - right. split; [congruence|]. eauto using str_le_trans.
Qed.

Lemma elem_of_instances (t : gmap Z Row) pk r :
  mkEmployee pk r ∈ instances t ↔ t !! pk = Some r.
Proof.
  unfold instances. rewrite list_elem_of_fmap. split.
  - intros [[k x] [Heq Hin]]. simpl in Heq. injection Heq as -> ->.
    by apply elem_of_map_to_list.
  - intros Hlook. exists (pk, r). split; [done|].
    by apply elem_of_map_to_list.
Qed.

Lemma NoDup_instances (t : gmap Z Row) : NoDup (instances t).
Proof.
  unfold instances. apply NoDup_fmap_2; [|apply NoDup_map_to_list].
  intros [k1 r1] [k2 r2] Heq. simpl in Heq. by injection Heq as -> ->.
Qed.

Lemma length_instances (t : gmap Z Row) : length (instances t) = size t.
Proof. unfold instances. by rewrite length_fmap, length_map_to_list. Qed.

(** What [Employee.objects.all()] evaluates to. *)
Lemma objects_all_eq s :
  objects_all s = (Return (merge_sort ordering (instances (table s))), s).
Proof. done. Qed.

Lemma elem_of_listing (t : gmap Z Row) pk r :
  mkEmployee pk r ∈ merge_sort ordering (instances t) ↔ t !! pk = Some r.
Proof. by rewrite merge_sort_Permutation, elem_of_instances. Qed.

Lemma listing_sorted (t : gmap Z Row) :
  StronglySorted by_last_then_first (merge_sort ordering (instances t)).
Proof.
  pose proof (StronglySorted_merge_sort ordering (instances t)) as Hs.
  induction Hs as [|a l _ IH Hall]; constructor; [done|].
  eapply Forall_impl; [exact Hall|].
  intros b. apply ordering_spec.
Qed.

End listing_order.

(** ** Equations of the storage operations and of the handlers *)

Section equations.

Lemma truthy_true v : truthy v = true ↔ ∃ s, v = Some s ∧ s ≠ "".
Proof.
  destruct v as [s|]; simpl.
  - rewrite negb_true_iff, String.eqb_neq. split.
    + intros Hs. by exists s.
    + intros (s' & [= <-] & Hs). done.
  - split; [done|]. intros (s & Hs & _). done.
Qed.

Lemma truthy_false v : truthy v = false ↔ missing_or_empty v.
Proof.
  unfold missing_or_empty. destruct v as [s|]; simpl.
  - rewrite negb_false_iff, String.eqb_eq. split.
    + intros ->. by right.
    + intros [?|[= ->]]; done.
  - split; [by left | done].
Qed.

Lemma all_given_submits request fn ln em pos hd :
  submits request fn ln em pos hd → all_given (submitted request) = true.
Proof.
  intros (-> & Hfn & Hln & Hem & Hpos & Hhd). unfold all_given. simpl.
  rewrite !andb_true_iff, !negb_true_iff, !String.eqb_neq. done.
Qed.

Lemma all_given_incomplete request :
  incomplete request ↔ all_given (submitted request) = false.
Proof.
  unfold incomplete, all_given.
  rewrite !andb_false_iff, !truthy_false. tauto.
Qed.

Lemma create_employee_eq request :
  views.create_employee request =
    if String.eqb (method request) "POST" then
      if all_given (submitted request)
      then (_ ← objects_create (submitted request); mret (redirect "/"))
      else mret (render request "create.html" [])
    else mret (render request "create.html" []).
Proof. done. Qed.

Lemma update_employee_eq request pk :
  views.update_employee request pk =
    (employee ← get_object_or_404 pk;
     if String.eqb (method request) "POST" then
       if all_given (submitted request)
       then (_ ← save employee (submitted request); mret (redirect "/"))
       else mret (render request "update.html"
                    [("employee", instance employee)])
     else mret (render request "update.html"
                  [("employee", instance employee)])).
Proof. done. Qed.

Lemma get_object_or_404_found s pk r :
  table s !! pk = Some r →
  get_object_or_404 pk s = (Return (mkEmployee pk r), s).
Proof.
  intros H. unfold get_object_or_404, objects_get, mbind, View_bind,
    get_store, mret, View_ret. simpl. by rewrite H.
Qed.

Lemma get_object_or_404_missing s pk :
  table s !! pk = None → get_object_or_404 pk s = (Raise Http404, s).
Proof.
  intros H. unfold get_object_or_404, objects_get, mbind, View_bind,
    get_store, mret, View_ret. simpl. by rewrite H.
Qed.

(** The conversion of the values either raises, leaving the store as it
    is, or yields the row made of the submitted strings and of the date
    the last one denotes. *)
Lemma prepare_cases v s :
  (∃ e, prepare v s = (Raise e, s) ∧ e ≠ Http404)
  ∨ (∃ fn ln em pos hd d,
       v = mkValues (Some fn) (Some ln) (Some em) (Some pos) (Some hd)
       ∧ DateField_to_python hd = Some d
       ∧ prepare v s = (Return (mkRow fn ln em pos d), s)).
Proof.
  destruct v as [fn ln em pos hd]. unfold prepare, raise. simpl.
  destruct hd as [hd|]; [|raises].
  destruct (DateField_to_python hd) as [d|] eqn:Hd; [|raises].
  destruct fn, ln, em, pos; try raises.
  right. by eauto 10.
Qed.

Lemma prepare_ok fn ln em pos hd d s :
  DateField_to_python hd = Some d →
  prepare (mkValues (Some fn) (Some ln) (Some em) (Some pos) (Some hd)) s
  = (Return (mkRow fn ln em pos d), s).
Proof. intros H. unfold prepare. simpl. by rewrite H. Qed.

Lemma prepare_bad_date v hd s :
  v_hire_date v = Some hd → DateField_to_python hd = None →
  prepare v s = (Raise ValidationError, s).
Proof. intros H1 H2. unfold prepare. by rewrite H1, H2. Qed.

Lemma check_widths_ok s r :
  widths_accepted s r → check_widths r s = (Return tt, s).
Proof.
  unfold widths_accepted, check_widths, mbind, View_bind, get_store.
  intros H. destruct (varchar_enforced s); simpl; [|done].
  by rewrite H.
Qed.

Lemma check_widths_cases s r :
  check_widths r s = (Return tt, s) ∨ check_widths r s = (Raise DataError, s).
Proof.
  unfold check_widths, mbind, View_bind, get_store.
  destruct (varchar_enforced s && negb (fits_columns r)); auto.
Qed.

Lemma objects_create_ok v r s :
  prepare v s = (Return r, s) → widths_accepted s r →
  ¬ email_taken (table s) (email r) →
  objects_create v s
  = (Return (mkEmployee (sequence s + 1) r), inserted s r).
Proof.
  intros Hp Hw He. unfold objects_create, mbind, View_bind.
  rewrite Hp. fold (@mbind View _). unfold mbind, View_bind.
  rewrite (check_widths_ok _ _ Hw). simpl.
  by rewrite bool_decide_eq_false_2.
Qed.

Lemma objects_create_taken v r s :
  prepare v s = (Return r, s) → widths_accepted s r →
  email_taken (table s) (email r) →
  objects_create v s = (Raise IntegrityError, s).
Proof.
  intros Hp Hw He. unfold objects_create, mbind, View_bind.
  rewrite Hp. rewrite (check_widths_ok _ _ Hw). simpl.
  by rewrite bool_decide_eq_true_2.
Qed.

(** [create] either raises, leaving the store as it is, or inserts one
    row whose address was free. *)
Lemma objects_create_cases v s :
  (∃ e, objects_create v s = (Raise e, s) ∧ e ≠ Http404)
  ∨ (∃ r, v_email v = Some (email r)
          ∧ ¬ email_taken (table s) (email r)
          ∧ objects_create v s
            = (Return (mkEmployee (sequence s + 1) r), inserted s r)).
Proof.
  unfold objects_create, mbind, View_bind.
  destruct (prepare_cases v s)
    as [(e & -> & He)|(fn & ln & em & pos & hd & d & -> & _ & ->)];
    [left; eauto|].
  destruct (check_widths_cases s (mkRow fn ln em pos d)) as [-> | ->];
    [|raises].
  simpl. case_bool_decide; [raises|]. right.
  eexists. split; [|split; [|reflexivity]]; done.
Qed.

Lemma save_ok self v r s :
  prepare v s = (Return r, s) → widths_accepted s r →
  ¬ email_taken (base.delete (id self) (table s)) (email r) →
  save self v s = (Return tt, with_table s (<[id self := r]> (table s))).
Proof.
  intros Hp Hw He. unfold save, mbind, View_bind.
  rewrite Hp. rewrite (check_widths_ok _ _ Hw). simpl.
  by rewrite bool_decide_eq_false_2.
Qed.

Lemma save_taken self v r s :
  prepare v s = (Return r, s) → widths_accepted s r →
  email_taken (base.delete (id self) (table s)) (email r) →
  save self v s = (Raise IntegrityError, s).
Proof.
  intros Hp Hw He. unfold save, mbind, View_bind.
  rewrite Hp. rewrite (check_widths_ok _ _ Hw). simpl.
  by rewrite bool_decide_eq_true_2.
Qed.

Lemma save_cases self v s :
  (∃ e, save self v s = (Raise e, s) ∧ e ≠ Http404)
  ∨ (∃ r, ¬ email_taken (base.delete (id self) (table s)) (email r)
          ∧ save self v s
            = (Return tt, with_table s (<[id self := r]> (table s)))).
Proof.
  unfold save, mbind, View_bind.
  destruct (prepare_cases v s)
    as [(e & -> & He)|(fn & ln & em & pos & hd & d & _ & _ & ->)];
    [left; eauto|].
  destruct (check_widths_cases s (mkRow fn ln em pos d)) as [-> | ->];
    [|raises].
  simpl. case_bool_decide; [raises|]. right.
  eexists. split; [|reflexivity]. done.
Qed.

End equations.

(** ** What a request can do to the store *)

Section effects.

Lemma home_eq request s :
  views.home request s
  = (Return (render request "home.html"
               [("employees",
                 instance_list (merge_sort ordering (instances (table s))))]),
     s).
Proof. done. Qed.

Lemma create_employee_cases request s :
  views.create_employee request s
    = (Return (render request "create.html" []), s)
  ∨ (∃ e, views.create_employee request s = (Raise e, s) ∧ e ≠ Http404)
  ∨ (∃ r, ¬ email_taken (table s) (email r)
          ∧ views.create_employee request s
            = (Return (redirect "/"), inserted s r)).
Proof.
  rewrite create_employee_eq.
  destruct (String.eqb (method request) "POST"); [|by left].
  destruct (all_given (submitted request)); [|by left].
  right. unfold mbind, View_bind.
  destruct (objects_create_cases (submitted request) s)
    as [(e & -> & He)|(r & _ & Hr & ->)].
  - left. eauto.
  - right. eauto.
Qed.

(** A POST with all five values given whose address is in the store
    raises, and leaves the store as it is. *)
Lemma create_employee_taken request s em :
  method request = "POST" → all_given (submitted request) = true →
  v_email (submitted request) = Some em → email_taken (table s) em →
  ∃ e, views.create_employee request s = (Raise e, s) ∧ e ≠ Http404.
Proof.
  intros Hpost Hall Hem Htaken. rewrite create_employee_eq, Hpost, Hall.
  simpl. unfold mbind, View_bind.
  destruct (objects_create_cases (submitted request) s)
    as [(e & -> & He)|(r & Hr & Hfree & _)]; [eauto|].
  rewrite Hem in Hr. injection Hr as ->. done.
Qed.

Lemma update_view_found request pk r s :
  table s !! pk = Some r →
  views.update_view request pk s
  = (Return (render request "update.html"
               [("employee", instance (mkEmployee pk r))]), s).
Proof.
  intros H. unfold views.update_view, mbind, View_bind.
  by rewrite (get_object_or_404_found _ _ _ H).
Qed.

Lemma update_view_missing request pk s :
  table s !! pk = None →
  views.update_view request pk s = (Raise Http404, s).
Proof.
  intros H. unfold views.update_view, mbind, View_bind.
  by rewrite (get_object_or_404_missing _ _ H).
Qed.

Lemma update_employee_missing request pk s :
  table s !! pk = None →
  views.update_employee request pk s = (Raise Http404, s).
Proof.
  intros H. unfold views.update_employee, mbind, View_bind.
  by rewrite (get_object_or_404_missing _ _ H).
Qed.

Lemma update_employee_found request pk old s :
  table s !! pk = Some old →
  views.update_employee request pk s =
    if String.eqb (method request) "POST" then
      if all_given (submitted request)
      then (_ ← save (mkEmployee pk old) (submitted request);
            mret (redirect "/")) s
      else (Return (render request "update.html"
                      [("employee", instance (mkEmployee pk old))]), s)
    else (Return (render request "update.html"
                    [("employee", instance (mkEmployee pk old))]), s).
Proof.
  intros H. rewrite update_employee_eq. unfold mbind at 1, View_bind at 1.
  rewrite (get_object_or_404_found _ _ _ H).
  destruct (String.eqb (method request) "POST"); [|done].
  destruct (all_given (submitted request)); done.
Qed.

Lemma delete_found request pk r s :
  table s !! pk = Some r →
  views.delete request pk s
  = (Return (redirect "/"), with_table s (base.delete pk (table s))).
Proof.
  intros H. unfold views.delete, mbind, View_bind.
  by rewrite (get_object_or_404_found _ _ _ H).
Qed.

Lemma delete_missing request pk s :
  table s !! pk = None → views.delete request pk s = (Raise Http404, s).
Proof.
  intros H. unfold views.delete, mbind, View_bind.
  by rewrite (get_object_or_404_missing _ _ H).
Qed.

Lemma create_employee_effect request s :
  effect s (views.create_employee request s).2.
Proof.
  destruct (create_employee_cases request s)
    as [-> | [(e & -> & _) | (r & Hr & ->)]]; simpl;
    eauto using effect.
Qed.

Lemma update_employee_effect request pk s :
  effect s (views.update_employee request pk s).2.
Proof.
  destruct (table s !! pk) as [old|] eqn:Hpk.
  - rewrite (update_employee_found _ _ _ _ Hpk).
    destruct (String.eqb (method request) "POST"); [|constructor].
    destruct (all_given (submitted request)); [|constructor].
    unfold mbind, View_bind.
    destruct (save_cases (mkEmployee pk old) (submitted request) s)
      as [(e & -> & _)|(r & Hr & ->)]; simpl; [constructor|].
    apply effect_update; [by rewrite Hpk | done].
  - rewrite (update_employee_missing _ _ _ Hpk). constructor.
Qed.

Lemma delete_effect request pk s : effect s (views.delete request pk s).2.
Proof.
  destruct (table s !! pk) as [old|] eqn:Hpk.
  - rewrite (delete_found _ _ _ _ Hpk). apply effect_delete.
  - rewrite (delete_missing _ _ _ Hpk). constructor.
Qed.

Lemma update_view_effect request pk s :
  effect s (views.update_view request pk s).2.
Proof.
  destruct (table s !! pk) as [old|] eqn:Hpk.
  - rewrite (update_view_found _ _ _ _ Hpk). constructor.
  - rewrite (update_view_missing _ _ _ Hpk). constructor.
Qed.

End effects.

(** ** Routing and the reachable states *)

Section routing.

Lemma first_match_elem routes path view :
  urls.first_match routes path = Some view →
  ∃ route, route ∈ routes ∧ urls.match_route route path = Some view.
Proof.
  induction routes as [|route routes IH]; simpl; [done|].
  destruct (urls.match_route route path) as [w|] eqn:E.
  - intros [= <-]. exists route. split; [left | done].
  - intros (route' & Hin & Hm)%IH. exists route'. split; [by right | done].
Qed.

Lemma match_route_plain p w path view :
  urls.match_route (p, urls.plain w) path = Some view → view = w.
Proof.
  unfold urls.match_route. simpl.
  destruct (urls.strip_prefix p path) as [rest|]; [|done].
  destruct (String.eqb rest ""); [|done]. by intros [= <-].
Qed.

Lemma match_route_with_id p w path view :
  urls.match_route (p, urls.with_id w) path = Some view →
  ∃ n, view = λ request, w request n.
Proof.
  unfold urls.match_route. simpl.
  destruct (urls.strip_prefix p path) as [rest|]; [|done].
  destruct (urls.read_digits None rest) as [[n|] tail]; [|done].
  destruct tail as [|c [|c' tail]]; try done.
  - destruct c as [[] [] [] [] [] [] [] []]; try done.
    intros [= <-]. by exists n.
  - destruct c as [[] [] [] [] [] [] [] []]; done.
Qed.

(** Whatever path is requested, the handler it resolves to has one of the
    four effects on the store. *)
Lemma resolve_effect path view request s :
  urls.resolve path = Some view → effect s (view request s).2.
Proof.
  unfold urls.resolve. destruct path as [|c rest]; [done|].
  destruct (Ascii.eqb c "/"); [|done].
  intros (route & Hin & Hm)%first_match_elem.
  unfold urls.urlpatterns in Hin.
  repeat (apply elem_of_cons in Hin as [-> | Hin]);
    [ .. | by apply elem_of_nil in Hin ].
  - apply match_route_plain in Hm as ->. rewrite home_eq. constructor.
  - apply match_route_plain in Hm as ->. constructor.
  - apply match_route_plain in Hm as ->. apply create_employee_effect.
  - apply match_route_with_id in Hm as [n ->]. apply update_view_effect.
  - apply match_route_with_id in Hm as [n ->]. apply update_employee_effect.
  - apply match_route_with_id in Hm as [n ->]. apply delete_effect.
Qed.

Lemma resolve_listing : urls.resolve "/" = Some views.home.
Proof. reflexivity. Qed.

Lemma effect_keys_issued s s' :
  keys_issued s → effect s s' → keys_issued s'.
Proof.
  unfold keys_issued. intros Hk [|r Hr|pk r [old Hold] Hr|pk]; simpl.
  - done.
  - apply map_Forall_insert_2; [lia|].
    eapply map_Forall_impl; [exact Hk|]. simpl. intros. lia.
  - apply map_Forall_insert_2; [|done].
    by apply (map_Forall_lookup_1 _ _ _ _ Hk Hold).
  - by apply map_Forall_delete.
Qed.

Lemma fresh_key s : keys_issued s → table s !! (sequence s + 1) = None.
Proof.
  intros Hk. destruct (table s !! (sequence s + 1)) as [r|] eqn:E; [|done].
  apply (map_Forall_lookup_1 _ _ _ _ Hk) in E. simpl in E. lia.
Qed.

Lemma unique_insert (t : gmap Z Row) k r :
  (∀ i j ri rj, t !! i = Some ri → t !! j = Some rj →
                email ri = email rj → i = j) →
  ¬ email_taken (base.delete k t) (email r) →
  ∀ i j ri rj, <[k := r]> t !! i = Some ri → <[k := r]> t !! j = Some rj →
               email ri = email rj → i = j.
Proof.
  intros Hu Hr i j ri rj Hi Hj Heq.
  destruct (decide (i = k)) as [->|Hik], (decide (j = k)) as [->|Hjk].
  - done.
  - rewrite lookup_insert_eq in Hi. rewrite lookup_insert_ne in Hj by done.
    injection Hi as <-. exfalso. apply Hr. exists j, rj.
    rewrite lookup_delete_ne by done. done.
  - rewrite lookup_insert_eq in Hj. rewrite lookup_insert_ne in Hi by done.
    injection Hj as <-. exfalso. apply Hr. exists i, ri.
    rewrite lookup_delete_ne by done. done.
  - rewrite lookup_insert_ne in Hi, Hj by done. eauto.
Qed.

Lemma effect_emails_unique s s' :
  keys_issued s → emails_unique s → effect s s' → emails_unique s'.
Proof.
  unfold emails_unique.
  intros Hk Hu [|r Hr|pk r [old Hold] Hr|pk]; simpl.
  - done.
  - apply unique_insert; [done|].
    by rewrite delete_id by (by apply fresh_key).
  - by apply unique_insert.
  - intros i j ri rj Hi Hj Heq.
    apply lookup_delete_Some in Hi as [_ Hi].
    apply lookup_delete_Some in Hj as [_ Hj]. eauto.
Qed.

(** In every reachable state the keys are below the sequence and the
    addresses are pairwise distinct. *)
Lemma reachable_invariant s :
  reachable s → keys_issued s ∧ emails_unique s.
Proof.
  induction 1 as [strict|s path view request _ [Hk Hu] Hres].
  - split; [apply map_Forall_empty|].
    intros i j ri rj Hi. simpl in Hi. by rewrite lookup_empty in Hi.
  - pose proof (resolve_effect path view request s Hres) as He.
    split; eauto using effect_keys_issued, effect_emails_unique.
Qed.

End routing.

Section samples.

Lemma submits_post fn ln em pos hd :
  fn ≠ "" → ln ≠ "" → em ≠ "" → pos ≠ "" → hd ≠ "" →
  submits (post fn ln em pos hd) fn ln em pos hd.
Proof. intros. split; [reflexivity | done]. Qed.

Lemma reachable_step s s' path view request :
  reachable s → urls.resolve path = Some view →
  (view request s).2 = s' → reachable s'.
Proof. intros Hs Hres <-. by eapply reachable_request. Qed.

Lemma reachable_one_row strict : reachable (one_row strict).
Proof.
  apply (reachable_step (empty_store strict) _ "/create_employee/"
           views.create_employee
           (post "Ada" "Lovelace" "ada@x.com" "Engineer" "1975-01-01"));
    [constructor | reflexivity |].
  by destruct strict.
Qed.

Lemma reachable_two_rows strict : reachable (two_rows strict).
Proof.
  apply (reachable_step (one_row strict) _ "/create_employee/"
           views.create_employee
           (post "Alan" "Turing" "alan@x.com" "Fellow" "1936-05-28"));
    [apply reachable_one_row | reflexivity |].
  by destruct strict; vm_compute.
Qed.

End samples.

(** * The claims *)

(** ** C1: creation *)

(** C1, as amended.  For every store whose keys were issued by the
    sequence and every POST submitting five non-empty strings, if the
    hire-date string denotes a calendar date [d] in the year-month-day
    format, the text values fit the column widths where the backend
    enforces them, and the e-mail address is not in the store, then
    [create_employee] answers with a redirect to "/", which resolves to the
    listing view; the table gains exactly one row, under a fresh key,
    holding the four strings and [d], every other row is unchanged; and
    the listing of the new store contains that row. *)
Theorem create_employee_inserts request s fn ln em pos hd d :
  method request = "POST" →
  submits request fn ln em pos hd →
  DateField_to_python hd = Some d →
  widths_accepted s (mkRow fn ln em pos d) →
  ¬ email_taken (table s) em →
  keys_issued s →
  let r := mkRow fn ln em pos d in
  let pk := sequence s + 1 in
  ∃ s', views.create_employee request s = (Return (redirect "/"), s')
        ∧ urls.resolve "/" = Some views.home
        ∧ table s !! pk = None
        ∧ table s' = <[pk := r]> (table s)
        ∧ size (table s') = S (size (table s))
        ∧ ∃ listing,
            (∀ request', views.home request' s'
               = (Return (render request' "home.html"
                            [("employees", instance_list listing)]), s'))
            ∧ mkEmployee pk r ∈ listing.
Proof.
  intros Hpost Hsub Hd Hw Hfree Hk r pk.
  pose proof (fresh_key s Hk) as Hfresh.
  exists (inserted s r). repeat split.
  - rewrite create_employee_eq, Hpost. simpl.
    rewrite (all_given_submits _ _ _ _ _ _ Hsub).
    destruct Hsub as (-> & _). unfold mbind, View_bind.
    rewrite (objects_create_ok _ r s); [done | by apply prepare_ok | done..].
  - done.
  - simpl. by apply map_size_insert_None.
  - exists (merge_sort ordering (instances (table (inserted s r)))).
    split; [done|]. apply elem_of_listing. simpl. apply lookup_insert_eq.
Qed.

(** The theorem at Ada's form and the empty database of a backend that
    enforces the widths. *)
Lemma create_employee_inserts_witness :
  ∃ s', views.create_employee
          (post "Ada" "Lovelace" "ada@x.com" "Engineer" "1975-01-01")
          (empty_store true)
        = (Return (redirect "/"), s')
        ∧ urls.resolve "/" = Some views.home
        ∧ table (empty_store true) !! 1 = None
        ∧ table s' = <[1 := ada_row]> ∅
        ∧ size (table s') = 1%nat
        ∧ ∃ listing,
            (∀ request', views.home request' s'
               = (Return (render request' "home.html"
                            [("employees", instance_list listing)]), s'))
            ∧ mkEmployee 1 ada_row ∈ listing.
Proof.
  apply (create_employee_inserts
           (post "Ada" "Lovelace" "ada@x.com" "Engineer" "1975-01-01")
           (empty_store true) "Ada" "Lovelace" "ada@x.com" "Engineer"
           "1975-01-01" (mkdate 1975 1 1)).
  - reflexivity.
  - by apply submits_post.
  - reflexivity.
  - intros _. reflexivity.
  - apply map_Exists_empty.
  - apply map_Forall_empty.
Defined.

(** C1 as stated fails: five non-empty strings whose address is free are
    not enough.  The hire date "next spring" is no date; the conversion of
    the date column raises [ValidationError], the handler does not catch
    it, no redirect is returned and no row is inserted. *)
Lemma create_employee_bad_date :
  let request := post "Ada" "Lovelace" "ada@x.com" "Engineer" "next spring" in
  let s := empty_store false in
  method request = "POST"
  ∧ submits request "Ada" "Lovelace" "ada@x.com" "Engineer" "next spring"
  ∧ ¬ email_taken (table s) "ada@x.com"
  ∧ keys_issued s
  ∧ views.create_employee request s = (Raise ValidationError, s)
  ∧ status_code (views.create_employee request s).1 = 500.
Proof.
  repeat split; try done. apply map_Exists_empty.
Qed.

(** ** C2: update *)

(** C2, as amended.  For every existing identifier and every POST
    submitting five non-empty strings, if the hire-date string denotes a
    calendar date [d], the text values fit the column widths where the
    backend enforces them, and no other record has the submitted e-mail
    address, then [update_employee] answers with a redirect to "/", which
    resolves to the listing view; the record with that identifier holds the
    four strings and [d], every other record and the number of records are
    unchanged; and the listing of the new store shows the identifier with
    the new values and with no others. *)
Theorem update_employee_overwrites request s pk old fn ln em pos hd d :
  table s !! pk = Some old →
  method request = "POST" →
  submits request fn ln em pos hd →
  DateField_to_python hd = Some d →
  widths_accepted s (mkRow fn ln em pos d) →
  ¬ email_taken (base.delete pk (table s)) em →
  let r := mkRow fn ln em pos d in
  ∃ s', views.update_employee request pk s = (Return (redirect "/"), s')
        ∧ urls.resolve "/" = Some views.home
        ∧ table s' = <[pk := r]> (table s)
        ∧ table s' !! pk = Some r
        ∧ size (table s') = size (table s)
        ∧ ∃ listing,
            (∀ request', views.home request' s'
               = (Return (render request' "home.html"
                            [("employees", instance_list listing)]), s'))
            ∧ mkEmployee pk r ∈ listing
            ∧ ∀ r', mkEmployee pk r' ∈ listing → r' = r.
Proof.
  intros Hold Hpost Hsub Hd Hw Hfree r.
  exists (with_table s (<[pk := r]> (table s))). repeat split.
  - rewrite (update_employee_found _ _ _ _ Hold), Hpost. simpl.
    rewrite (all_given_submits _ _ _ _ _ _ Hsub).
    destruct Hsub as (-> & _). unfold mbind, View_bind.
    rewrite (save_ok _ _ r s); [done | by apply prepare_ok | done..].
  - simpl. apply lookup_insert_eq.
  - simpl. rewrite <- (insert_delete_id (table s) pk old Hold) at 2.
    rewrite <- (insert_delete_eq (table s) pk r).
    rewrite !map_size_insert_None by apply lookup_delete_eq. done.
  - exists (merge_sort ordering
              (instances (table (with_table s (<[pk := r]> (table s)))))).
    split; [done|]. split.
    + apply elem_of_listing. simpl. apply lookup_insert_eq.
    + intros r' Hin. apply elem_of_listing in Hin. simpl in Hin.
      rewrite lookup_insert_eq in Hin. by injection Hin.
Qed.

(** The theorem at the update of Ada's position in the store of two
    records. *)
Lemma update_employee_overwrites_witness :
  ∃ s', views.update_employee
          (post "Ada" "Lovelace" "ada@x.com" "Senior Engineer" "1975-01-01")
          1 (two_rows true)
        = (Return (redirect "/"), s')
        ∧ urls.resolve "/" = Some views.home
        ∧ table s'
          = <[1 := mkRow "Ada" "Lovelace" "ada@x.com" "Senior Engineer"
                         (mkdate 1975 1 1)]> (table (two_rows true))
        ∧ table s' !! 1
          = Some (mkRow "Ada" "Lovelace" "ada@x.com" "Senior Engineer"
                        (mkdate 1975 1 1))
        ∧ size (table s') = size (table (two_rows true))
        ∧ ∃ listing,
            (∀ request', views.home request' s'
               = (Return (render request' "home.html"
                            [("employees", instance_list listing)]), s'))
            ∧ mkEmployee 1 (mkRow "Ada" "Lovelace" "ada@x.com"
                                  "Senior Engineer" (mkdate 1975 1 1))
              ∈ listing
            ∧ ∀ r', mkEmployee 1 r' ∈ listing
                    → r' = mkRow "Ada" "Lovelace" "ada@x.com"
                                 "Senior Engineer" (mkdate 1975 1 1).
Proof.
  apply (update_employee_overwrites
           (post "Ada" "Lovelace" "ada@x.com" "Senior Engineer" "1975-01-01")
           (two_rows true) 1 ada_row "Ada" "Lovelace" "ada@x.com"
           "Senior Engineer" "1975-01-01" (mkdate 1975 1 1)).
  - reflexivity.
  - reflexivity.
  - by apply submits_post.
  - reflexivity.
  - intros _. reflexivity.
  - apply (bool_decide_eq_false_1 _). reflexivity.
Defined.

(** C2 as stated fails: in the store holding Ada (1) and Alan (2), a POST
    that gives record 1 five non-empty values, among them Alan's address,
    violates the unique index; [save] raises [IntegrityError], the handler
    does not catch it, and record 1 keeps its old values. *)
Lemma update_employee_duplicate_email :
  let request := post "Ada" "Lovelace" "alan@x.com" "Engineer" "1975-01-01" in
  let s := two_rows false in
  reachable s
  ∧ table s !! 1 = Some ada_row
  ∧ method request = "POST"
  ∧ submits request "Ada" "Lovelace" "alan@x.com" "Engineer" "1975-01-01"
  ∧ views.update_employee request 1 s = (Raise IntegrityError, s)
  ∧ status_code (views.update_employee request 1 s).1 = 500.
Proof.
  repeat split; try done. apply reachable_two_rows.
Qed.

(** ** C3: identifiers that do not exist *)

(** C3.  For every identifier that is not in the store and every request,
    the update form, the update submission and the deletion each raise
    [Http404], which the client receives as "not found" (404), and each
    leaves the store as it was; none of them answers with a page or a
    redirect. *)
Theorem missing_id_not_found request s pk :
  table s !! pk = None →
  views.update_view request pk s = (Raise Http404, s)
  ∧ views.update_employee request pk s = (Raise Http404, s)
  ∧ views.delete request pk s = (Raise Http404, s)
  ∧ status_code (views.update_view request pk s).1 = 404
  ∧ status_code (views.update_employee request pk s).1 = 404
  ∧ status_code (views.delete request pk s).1 = 404.
Proof.
  intros Hpk.
  rewrite (update_view_missing _ _ _ Hpk), (update_employee_missing _ _ _ Hpk),
    (delete_missing _ _ _ Hpk). done.
Qed.

(** The theorem at the identifier 7, which the store of one record does
    not have. *)
Lemma missing_id_not_found_witness :
  let request := post "Ada" "Lovelace" "ada@x.com" "Engineer" "1975-01-01" in
  let s := one_row false in
  views.update_view request 7 s = (Raise Http404, s)
  ∧ views.update_employee request 7 s = (Raise Http404, s)
  ∧ views.delete request 7 s = (Raise Http404, s)
  ∧ status_code (views.update_view request 7 s).1 = 404
  ∧ status_code (views.update_employee request 7 s).1 = 404
  ∧ status_code (views.delete request 7 s).1 = 404.
Proof.
  apply (missing_id_not_found
           (post "Ada" "Lovelace" "ada@x.com" "Engineer" "1975-01-01")
           (one_row false) 7).
  reflexivity.
Defined.

(** ** C4: deletion *)

(** C4.  For every existing identifier and every request, [delete] answers
    with a redirect to "/", which resolves to the listing view, and removes
    the record with that identifier and no other; afterwards the listing
    has no entry with that identifier, and the update form, the update
    submission and a second deletion of the same identifier all raise
    [Http404] ("not found") and change nothing. *)
Theorem delete_removes request s pk r :
  table s !! pk = Some r →
  ∃ s', views.delete request pk s = (Return (redirect "/"), s')
        ∧ urls.resolve "/" = Some views.home
        ∧ table s' = base.delete pk (table s)
        ∧ table s' !! pk = None
        ∧ size (table s) = S (size (table s'))
        ∧ (∃ listing,
             (∀ request', views.home request' s'
                = (Return (render request' "home.html"
                             [("employees", instance_list listing)]), s'))
             ∧ ∀ e, e ∈ listing → id e ≠ pk)
        ∧ ∀ request',
            views.update_view request' pk s' = (Raise Http404, s')
            ∧ views.update_employee request' pk s' = (Raise Http404, s')
            ∧ views.delete request' pk s' = (Raise Http404, s')
            ∧ status_code (views.delete request' pk s').1 = 404.
Proof.
  intros Hpk. set (s' := with_table s (base.delete pk (table s))).
  assert (table s' !! pk = None) as Hgone by apply lookup_delete_eq.
  exists s'. repeat split.
  - by apply (delete_found _ _ r).
  - done.
  - simpl. rewrite <- (insert_delete_id (table s) pk r Hpk) at 1.
    by rewrite map_size_insert_None by apply lookup_delete_eq.
  - exists (merge_sort ordering (instances (table s'))). split; [done|].
    intros [k x] Hin Hk. simpl in Hk. subst k.
    apply elem_of_listing in Hin. by rewrite Hgone in Hin.
  - by apply update_view_missing.
  - by apply update_employee_missing.
  - by apply delete_missing.
  - by rewrite delete_missing.
Qed.

(** The theorem at the deletion of record 1 from the store of two
    records. *)
Lemma delete_removes_witness :
  ∃ s', views.delete get 1 (two_rows false) = (Return (redirect "/"), s')
        ∧ urls.resolve "/" = Some views.home
        ∧ table s' = base.delete 1 (table (two_rows false))
        ∧ table s' !! 1 = None
        ∧ size (table (two_rows false)) = S (size (table s'))
        ∧ (∃ listing,
             (∀ request', views.home request' s'
                = (Return (render request' "home.html"
                             [("employees", instance_list listing)]), s'))
             ∧ ∀ e, e ∈ listing → id e ≠ 1)
        ∧ ∀ request',
            views.update_view request' 1 s' = (Raise Http404, s')
            ∧ views.update_employee request' 1 s' = (Raise Http404, s')
            ∧ views.delete request' 1 s' = (Raise Http404, s')
            ∧ status_code (views.delete request' 1 s').1 = 404.
Proof.
  apply (delete_removes get (two_rows false) 1 ada_row). reflexivity.
Defined.

(** ** C5 and C6: incomplete submissions *)

(** C5.  For every POST to [create_employee] in which at least one of the
    five values is missing or empty, the store is unchanged and the answer
    is the creation form rendered with an empty context: no row, no values,
    no error message; it is the answer of the form display handler. *)
Theorem create_employee_incomplete request s :
  method request = "POST" →
  incomplete request →
  views.create_employee request s
    = (Return (render request "create.html" []), s)
  ∧ views.create_employee request s = views.create_view request s.
Proof.
  intros Hpost Hinc. apply all_given_incomplete in Hinc.
  rewrite create_employee_eq, Hpost, Hinc. done.
Qed.

(** The theorem at a form whose last name is empty. *)
Lemma create_employee_incomplete_witness :
  let request := post "Ada" "" "ada@x.com" "Engineer" "1975-01-01" in
  let s := one_row true in
  views.create_employee request s
    = (Return (render request "create.html" []), s)
  ∧ views.create_employee request s = views.create_view request s.
Proof.
  apply (create_employee_incomplete
           (post "Ada" "" "ada@x.com" "Engineer" "1975-01-01") (one_row true)).
  - reflexivity.
  - right. left. right. reflexivity.
Defined.

(** C6.  For every existing identifier and every POST to [update_employee]
    in which at least one of the five values is missing or empty, the store
    is unchanged, and the answer is the update form rendered with the
    record as it is stored, not with the submitted values; it is the answer
    of the update form display handler. *)
Theorem update_employee_incomplete request s pk old :
  table s !! pk = Some old →
  method request = "POST" →
  incomplete request →
  views.update_employee request pk s
    = (Return (render request "update.html"
                 [("employee", instance (mkEmployee pk old))]), s)
  ∧ views.update_employee request pk s = views.update_view request pk s.
Proof.
  intros Hold Hpost Hinc. apply all_given_incomplete in Hinc.
  rewrite (update_employee_found _ _ _ _ Hold), Hpost, Hinc.
  by rewrite (update_view_found _ _ _ _ Hold).
Qed.

(** The theorem at a form for record 1 whose address is empty. *)
Lemma update_employee_incomplete_witness :
  let request := post "Augusta" "King" "" "Countess" "1835-07-08" in
  let s := two_rows true in
  views.update_employee request 1 s
    = (Return (render request "update.html"
                 [("employee", instance (mkEmployee 1 ada_row))]), s)
  ∧ views.update_employee request 1 s = views.update_view request 1 s.
Proof.
  apply (update_employee_incomplete
           (post "Augusta" "King" "" "Countess" "1835-07-08")
           (two_rows true) 1 ada_row).
  - reflexivity.
  - reflexivity.
  - right. right. left. right. reflexivity.
Defined.

(** ** C7: the unique e-mail address *)

(** C7.  In every reachable store no two records share an e-mail address.
    A POST to [create_employee] whose address is that of an existing record
    leaves the store unchanged; when its five values are all given the
    insertion is attempted and fails in the storage layer: an exception
    leaves the handler uncaught (a server error for the client), and it is
    [IntegrityError], raised by the unique index, when nothing else is
    wrong with the values. *)
Theorem emails_stay_unique s :
  reachable s →
  emails_unique s
  ∧ ∀ request em,
      method request = "POST" →
      v_email (submitted request) = Some em →
      email_taken (table s) em →
      (views.create_employee request s).2 = s
      ∧ (¬ incomplete request →
         ∃ e, views.create_employee request s = (Raise e, s)
              ∧ status_code (views.create_employee request s).1 = 500)
      ∧ (∀ fn ln pos hd d,
           submits request fn ln em pos hd →
           DateField_to_python hd = Some d →
           widths_accepted s (mkRow fn ln em pos d) →
           views.create_employee request s = (Raise IntegrityError, s)).
Proof.
  intros Hreach. split; [by apply reachable_invariant|].
  intros request em Hpost Hem Htaken.
  assert (all_given (submitted request) = true →
          ∃ e, views.create_employee request s = (Raise e, s) ∧ e ≠ Http404)
    as Hraise by (intros; by eapply create_employee_taken).
  repeat split.
  - destruct (all_given (submitted request)) eqn:Hall.
    + destruct Hraise as (e & -> & _); done.
    + by rewrite create_employee_eq, Hpost, Hall.
  - intros Hcomplete. destruct Hraise as (e & He & Hne).
    + rewrite all_given_incomplete in Hcomplete.
      by destruct (all_given (submitted request)).
    + exists e. split; [done|]. rewrite He. by destruct e.
  - intros fn ln pos hd d Hsub Hd Hw.
    rewrite create_employee_eq, Hpost, (all_given_submits _ _ _ _ _ _ Hsub).
    simpl. destruct Hsub as (Hvalues & _). rewrite Hvalues.
    unfold mbind, View_bind.
    rewrite (objects_create_taken _ (mkRow fn ln em pos d) s);
      [done | by apply prepare_ok | done..].
Qed.

(** The theorem at the store of two records. *)
Lemma emails_stay_unique_witness :
  let s := two_rows true in
  emails_unique s
  ∧ ∀ request em,
      method request = "POST" →
      v_email (submitted request) = Some em →
      email_taken (table s) em →
      (views.create_employee request s).2 = s
      ∧ (¬ incomplete request →
         ∃ e, views.create_employee request s = (Raise e, s)
              ∧ status_code (views.create_employee request s).1 = 500)
      ∧ (∀ fn ln pos hd d,
           submits request fn ln em pos hd →
           DateField_to_python hd = Some d →
           widths_accepted s (mkRow fn ln em pos d) →
           views.create_employee request s = (Raise IntegrityError, s)).
Proof.
  apply (emails_stay_unique (two_rows true)). apply reachable_two_rows.
Defined.

(** The second submission of Ada's form, evaluated. *)
Example create_employee_twice :
  views.create_employee
    (post "Ada" "Lovelace" "ada@x.com" "Engineer" "1975-01-01") (one_row false)
  = (Raise IntegrityError, one_row false).
Proof. reflexivity. Qed.

(** ** C8: the listing *)

(** C8.  For every store and request, [home] leaves the store unchanged and
    renders the listing from a list that holds every record of the store,
    each exactly once, and nothing else, in ascending lexicographic order
    of the last name and, among equal last names, of the first name. *)
Theorem home_lists_all_sorted request s :
  ∃ listing,
    views.home request s
    = (Return (render request "home.html"
                 [("employees", instance_list listing)]), s)
    ∧ (∀ pk r, mkEmployee pk r ∈ listing ↔ table s !! pk = Some r)
    ∧ NoDup listing
    ∧ length listing = size (table s)
    ∧ StronglySorted by_last_then_first listing.
Proof.
  exists (merge_sort ordering (instances (table s))). repeat split.
  - by apply elem_of_listing.
  - by apply elem_of_listing.
  - rewrite merge_sort_Permutation. apply NoDup_instances.
  - rewrite merge_sort_Permutation. apply length_instances.
  - apply listing_sorted.
Qed.

(** The listing of the two sample records: Lovelace before Turing. *)
Example home_two_rows :
  views.home get (two_rows false)
  = (Return (render get "home.html"
               [("employees",
                 instance_list [mkEmployee 1 ada_row; mkEmployee 2 alan_row])]),
     two_rows false).
Proof. reflexivity. Qed.

(** ** C9: requests that are not POST *)

(** C9.  For every request whose method is not POST, [create_employee]
    leaves the store unchanged and renders the blank creation form, and
    [update_employee] leaves the store unchanged and renders the update
    form with the stored record when the identifier exists, and raises
    [Http404] when it does not. *)
Theorem non_post_changes_nothing request s :
  method request ≠ "POST" →
  views.create_employee request s
    = (Return (render request "create.html" []), s)
  ∧ ∀ pk,
      (∀ r, table s !! pk = Some r →
            views.update_employee request pk s
            = (Return (render request "update.html"
                         [("employee", instance (mkEmployee pk r))]), s))
      ∧ (table s !! pk = None →
         views.update_employee request pk s = (Raise Http404, s)).
Proof.
  intros Hmethod. apply String.eqb_neq in Hmethod. split.
  - by rewrite create_employee_eq, Hmethod.
  - intros pk. split.
    + intros r Hr. by rewrite (update_employee_found _ _ _ _ Hr), Hmethod.
    + apply update_employee_missing.
Qed.

(** The theorem at a GET request that carries a complete form. *)
Lemma non_post_changes_nothing_witness :
  let request :=
    mkRequest "GET" (form "Ada" "King" "ada@x.com" "Countess" "1835-07-08") in
  let s := one_row false in
  views.create_employee request s
    = (Return (render request "create.html" []), s)
  ∧ ∀ pk,
      (∀ r, table s !! pk = Some r →
            views.update_employee request pk s
            = (Return (render request "update.html"
                         [("employee", instance (mkEmployee pk r))]), s))
      ∧ (table s !! pk = None →
         views.update_employee request pk s = (Raise Http404, s)).
Proof.
  apply (non_post_changes_nothing
           (mkRequest "GET"
              (form "Ada" "King" "ada@x.com" "Countess" "1835-07-08"))
           (one_row false)).
  discriminate.
Defined.

(** ** C10: the check is non-emptiness only *)

Section white_space.

Lemma space_is_no_digit c : is_space c = true → digit c = None.
Proof. destruct c as [[] [] [] [] [] [] [] []]; done. Qed.

(** A string that starts with white space is not a date. *)
Lemma blank_is_no_date hd : blank hd → DateField_to_python hd = None.
Proof.
  intros [Hne Hsp]. destruct hd as [|c hd]; [done|].
  simpl in Hsp. apply andb_true_iff in Hsp as [Hc _].
  apply space_is_no_digit in Hc.
  unfold DateField_to_python, date_re_match.
  destruct hd as [|? [|? [|? [|? ?]]]]; try done. by rewrite Hc.
Qed.

Lemma submits_given request fn ln em pos hd :
  submits request fn ln em pos hd → ¬ incomplete request.
Proof.
  intros Hsub%all_given_submits Hinc%all_given_incomplete. congruence.
Qed.

Lemma given_submits request :
  all_given (submitted request) = true →
  ∃ fn ln em pos hd, submits request fn ln em pos hd.
Proof.
  unfold all_given, submits. rewrite !andb_true_iff, !truthy_true.
  destruct (submitted request) as [fn ln em pos hd]. simpl.
  intros [[[[(a & -> & ?) (b & -> & ?)] (c & -> & ?)] (d & -> & ?)]
            (e & -> & ?)].
  by exists a, b, c, d, e.
Qed.

End white_space.

(** C10, as amended.  The check of both submission handlers is the
    non-emptiness of the five values and nothing else.  Every submission
    either has a missing or empty value or consists of five non-empty
    strings; a POST of the first kind is answered with the form and
    changes nothing; a POST of the second kind is handed, with the strings
    as they are and whatever they contain, to the storage operation
    ([create], or [save] on the record found), whose result is the
    handler's: the handler itself trims nothing and checks no address,
    width or date.  A submission whose first name, last name, address and
    position are a single space and whose hire date is a date is accepted,
    on create and on update, and the spaces are stored as they are. *)
Theorem only_emptiness_is_checked :
  (∀ request,
     incomplete request ∨ ∃ fn ln em pos hd, submits request fn ln em pos hd)
  ∧ (∀ request s,
       method request = "POST" → incomplete request →
       views.create_employee request s
         = (Return (render request "create.html" []), s)
       ∧ ∀ pk old, table s !! pk = Some old →
           views.update_employee request pk s
           = (Return (render request "update.html"
                        [("employee", instance (mkEmployee pk old))]), s))
  ∧ (∀ request s fn ln em pos hd,
       method request = "POST" → submits request fn ln em pos hd →
       let values :=
         mkValues (Some fn) (Some ln) (Some em) (Some pos) (Some hd) in
       views.create_employee request s
         = (_ ← objects_create values; mret (redirect "/")) s
       ∧ ∀ pk old, table s !! pk = Some old →
           views.update_employee request pk s
           = (_ ← save (mkEmployee pk old) values; mret (redirect "/")) s)
  ∧ (let request := post " " " " " " " " "2024-02-29" in
     let spaces := mkRow " " " " " " " " (mkdate 2024 2 29) in
     blank " "
     ∧ submits request " " " " " " " " "2024-02-29"
     ∧ views.create_employee request (one_row true)
       = (Return (redirect "/"), inserted (one_row true) spaces)
     ∧ table (inserted (one_row true) spaces) !! 2 = Some spaces
     ∧ views.update_employee request 1 (one_row true)
       = (Return (redirect "/"),
          with_table (one_row true) (<[1 := spaces]> (table (one_row true))))
     ∧ <[1 := spaces]> (table (one_row true)) !! 1 = Some spaces).
Proof.
  split; [|split; [|split]].
  - intros request. destruct (all_given (submitted request)) eqn:Hall.
    + right. by apply given_submits.
    + left. by apply all_given_incomplete.
  - intros request s Hpost Hinc%all_given_incomplete. split.
    + by rewrite create_employee_eq, Hpost, Hinc.
    + intros pk old Hold.
      by rewrite (update_employee_found _ _ _ _ Hold), Hpost, Hinc.
  - intros request s fn ln em pos hd Hpost Hsub values. split.
    + rewrite create_employee_eq, Hpost, (all_given_submits _ _ _ _ _ _ Hsub).
      destruct Hsub as (-> & _). done.
    + intros pk old Hold.
      rewrite (update_employee_found _ _ _ _ Hold), Hpost,
        (all_given_submits _ _ _ _ _ _ Hsub).
      destruct Hsub as (-> & _). done.
  - repeat split; done.
Qed.

(** C10 as stated fails: no submission in which every one of the five
    values is white space is accepted.  Such a hire date passes the check
    of the handler, but the date column refuses it: [create] and [save]
    raise [ValidationError] and nothing is stored. *)
Lemma blank_hire_date_refused :
  ¬ ∃ request s fn ln em pos hd,
      method request = "POST"
      ∧ submits request fn ln em pos hd
      ∧ blank fn ∧ blank ln ∧ blank em ∧ blank pos ∧ blank hd
      ∧ ((views.create_employee request s).1 = Return (redirect "/")
         ∨ ∃ pk, (views.update_employee request pk s).1
                 = Return (redirect "/")).
Proof.
  intros (request & s & fn & ln & em & pos & hd & Hpost & Hsub
          & _ & _ & _ & _ & Hblank & Haccepted).
  apply blank_is_no_date in Hblank.
  pose proof (all_given_submits _ _ _ _ _ _ Hsub) as Hall.
  assert (v_hire_date (submitted request) = Some hd) as Hhd
    by (destruct Hsub as (-> & _); done).
  destruct Haccepted as [Hcreate | [pk Hupdate]].
  - rewrite create_employee_eq, Hpost, Hall in Hcreate. simpl in Hcreate.
    unfold mbind, View_bind, objects_create in Hcreate.
    unfold mbind at 1, View_bind at 1 in Hcreate.
    by rewrite (prepare_bad_date _ hd s Hhd Hblank) in Hcreate.
  - destruct (table s !! pk) as [old|] eqn:Hpk.
    + rewrite (update_employee_found _ _ _ _ Hpk), Hpost, Hall in Hupdate.
      simpl in Hupdate. unfold mbind, View_bind, save in Hupdate.
      unfold mbind at 1, View_bind at 1 in Hupdate.
      by rewrite (prepare_bad_date _ hd s Hhd Hblank) in Hupdate.
    + by rewrite (update_employee_missing _ _ _ Hpk) in Hupdate.
Qed.

(** The submission of five spaces, evaluated. *)
Example create_employee_five_spaces :
  views.create_employee (post " " " " " " " " " ") (empty_store false)
  = (Raise ValidationError, empty_store false).
Proof. reflexivity. Qed.

(** ** The scenario of the specification *)

(** Ada is created: the listing shows her row.  Her position is updated
    with the other values resubmitted: the listing still shows one row, with
    the new position.  She is deleted: the listing is empty and her update
    form is "not found". *)
Example ada_scenario :
  let senior :=
    mkRow "Ada" "Lovelace" "ada@x.com" "Senior Engineer" (mkdate 1975 1 1) in
  let s0 := empty_store false in
  let s1 := (urls.serve "/create_employee/"
               (post "Ada" "Lovelace" "ada@x.com" "Engineer" "1975-01-01")
               s0).2 in
  let s2 := (urls.serve "/update_employee/1/"
               (post "Ada" "Lovelace" "ada@x.com" "Senior Engineer"
                     "1975-01-01") s1).2 in
  let s3 := (urls.serve "/delete/1/" get s2).2 in
  (urls.serve "/" get s1).1
    = Return (render get "home.html"
                [("employees", instance_list [mkEmployee 1 ada_row])])
  ∧ (urls.serve "/" get s2).1
    = Return (render get "home.html"
                [("employees", instance_list [mkEmployee 1 senior])])
  ∧ (urls.serve "/" get s3).1
    = Return (render get "home.html" [("employees", instance_list [])])
  ∧ (urls.serve "/update/1/" get s3).1 = Raise Http404.
Proof. repeat split; reflexivity. Qed.

(** * Further properties of the handlers, the routes and the model *)

(** ** [urls.py]: what the routes match *)

Section converter.

Lemma digit_range c d : digit c = Some d → 0 ≤ d ≤ 9.
Proof.
  unfold digit. case_match; [|done]. intros [= <-].
  apply andb_true_iff in H as [H1 H2]. lia.
Qed.

Lemma int_from_nonneg ds : ∀ acc, 0 ≤ acc → 0 ≤ int_from acc ds.
Proof.
  induction ds as [|c ds IH]; intros acc Hacc; simpl; [done|].
  apply IH. destruct (digit c) as [d|] eqn:Hd; simpl; [|lia].
  apply digit_range in Hd. lia.
Qed.

Lemma strip_prefix_app p : ∀ s rest,
  urls.strip_prefix p s = Some rest → s = p ++ rest.
Proof.
  induction p as [|a p IH]; intros s rest; simpl.
  - by intros [= ->].
  - destruct s as [|b s]; [done|].
    destruct (Ascii.eqb a b) eqn:Hab; [|done].
    apply Ascii.eqb_eq in Hab as ->. intros ->%IH. done.
Qed.


(** The digits read by the converter, the number they denote and what
    follows them. *)
Lemma read_digits_inv rest : ∀ acc n tail,
  urls.read_digits acc rest = (Some n, tail) →
  ∃ ds, rest = ds ++ tail ∧ all_digits ds = true
        ∧ n = int_from (default 0 acc) ds
        ∧ (acc = None → ds ≠ "").
Proof.
  induction rest as [|c rest IH]; intros acc n tail; simpl.
  - intros [= -> <-]. exists "". by repeat split.
  - destruct (digit c) as [d|] eqn:Hd.
    + intros (ds & -> & Hds & -> & _)%IH. exists (String c ds). simpl.
      rewrite Hd. repeat split; [|done..].
      apply andb_true_iff. split; [|done]. apply bool_decide_eq_true. eauto.
    + intros [= -> <-]. exists "". by repeat split.
Qed.


Lemma match_route_with_id_inv p w path view :
  urls.match_route (p, urls.with_id w) path = Some view →
  ∃ ds, path = p ++ ds ++ "/" ∧ ds ≠ "" ∧ all_digits ds = true
        ∧ 0 ≤ int ds ∧ view = λ request, w request (int ds).
Proof.
  unfold urls.match_route. simpl.
  destruct (urls.strip_prefix p path) as [rest|] eqn:Hp; [|done].
  apply strip_prefix_app in Hp as ->.
  destruct (urls.read_digits None rest) as [[n|] tail] eqn:Hr; [|done].
  apply read_digits_inv in Hr as (ds & -> & Hds & -> & Hne).
  destruct tail as [|c [|c' tail]]; try done.
  - destruct c as [[] [] [] [] [] [] [] []]; try done.
    intros [= <-]. exists ds. repeat split; auto.
    by apply int_from_nonneg.
  - destruct c as [[] [] [] [] [] [] [] []]; done.
Qed.

Lemma match_route_plain_inv p w path view :
  urls.match_route (p, urls.plain w) path = Some view →
  path = p ∧ view = w.
Proof.
  unfold urls.match_route. simpl.
  destruct (urls.strip_prefix p path) as [rest|] eqn:Hp; [|done].
  apply strip_prefix_app in Hp as ->.
  destruct (String.eqb rest "") eqn:Hrest; [|done].
  apply String.eqb_eq in Hrest as ->. intros [= <-].
  split; [|done]. induction p as [|a p IH]; [done|].
  change (String a (p ++ "") = String a p). by rewrite IH.
Qed.


End converter.

Section routes.



(** The handler a path resolves to is one of the six. *)
Lemma resolve_only_the_six_routes_aux path view :
  urls.resolve path = Some view →
  view = views.home ∨ view = views.create_view
  ∨ view = views.create_employee
  ∨ (∃ n, view = λ request, views.update_view request n)
  ∨ (∃ n, view = λ request, views.update_employee request n)
  ∨ (∃ n, view = λ request, views.delete request n).
Proof.
  unfold urls.resolve. destruct path as [|c rest]; [done|].
  destruct (Ascii.eqb c "/"); [|done].
  intros (route & Hin & Hm)%first_match_elem.
  unfold urls.urlpatterns in Hin.
  repeat (apply elem_of_cons in Hin as [-> | Hin]);
    [ .. | by apply elem_of_nil in Hin ].
  - apply match_route_plain in Hm as ->. tauto.
  - apply match_route_plain in Hm as ->. tauto.
  - apply match_route_plain in Hm as ->. tauto.
  - apply match_route_with_id in Hm. tauto.
  - apply match_route_with_id in Hm. tauto.
  - apply match_route_with_id in Hm. tauto.
Qed.


End routes.



(** X2.  Nothing else is routed: a path that resolves is "/", "/create/",
    "/create_employee/", or one of the three identifier routes followed by a
    non-empty string of decimal digits and a final slash, and it resolves to
    the handler of that route, at the non-negative number the digits
    denote.  A path without the final slash, with a sign or with anything
    but digits for the identifier resolves to nothing. *)
Theorem resolve_only_the_six_routes path view :
  urls.resolve path = Some view →
  (path = "/" ∧ view = views.home)
  ∨ (path = "/create/" ∧ view = views.create_view)
  ∨ (path = "/create_employee/" ∧ view = views.create_employee)
  ∨ ∃ ds, ds ≠ "" ∧ all_digits ds = true ∧ 0 ≤ int ds
          ∧ ((path = "/" ++ "update/" ++ ds ++ "/"
              ∧ view = λ request, views.update_view request (int ds))
             ∨ (path = "/" ++ "update_employee/" ++ ds ++ "/"
                ∧ view = λ request, views.update_employee request (int ds))
             ∨ (path = "/" ++ "delete/" ++ ds ++ "/"
                ∧ view = λ request, views.delete request (int ds))).
Proof.
  unfold urls.resolve. destruct path as [|c rest]; [done|].
  destruct (Ascii.eqb c "/") eqn:Hc; [|done].
  apply Ascii.eqb_eq in Hc as ->.
  intros (route & Hin & Hm)%first_match_elem.
  unfold urls.urlpatterns in Hin.
  repeat (apply elem_of_cons in Hin as [-> | Hin]);
    [ .. | by apply elem_of_nil in Hin ].
  - apply match_route_plain_inv in Hm as [-> ->]. by left.
  - apply match_route_plain_inv in Hm as [-> ->]. right. by left.
  - apply match_route_plain_inv in Hm as [-> ->]. right. right. by left.
  - apply match_route_with_id_inv in Hm as (ds & -> & ? & ? & ? & ->).
    do 3 right. exists ds. repeat split; auto.
  - apply match_route_with_id_inv in Hm as (ds & -> & ? & ? & ? & ->).
    do 3 right. exists ds. repeat split; auto.
  - apply match_route_with_id_inv in Hm as (ds & -> & ? & ? & ? & ->).
    do 3 right. exists ds. repeat split; auto.
Qed.

(** The theorem at the path of the creation form. *)
Lemma resolve_only_the_six_routes_witness :
  ("/create/" = "/" ∧ views.create_view = views.home)
  ∨ ("/create/" = "/create/" ∧ views.create_view = views.create_view)
  ∨ ("/create/" = "/create_employee/"
     ∧ views.create_view = views.create_employee)
  ∨ ∃ ds, ds ≠ "" ∧ all_digits ds = true ∧ 0 ≤ int ds
          ∧ (("/create/" = "/" ++ "update/" ++ ds ++ "/"
              ∧ views.create_view
                = λ request, views.update_view request (int ds))
             ∨ ("/create/" = "/" ++ "update_employee/" ++ ds ++ "/"
                ∧ views.create_view
                  = λ request, views.update_employee request (int ds))
             ∨ ("/create/" = "/" ++ "delete/" ++ ds ++ "/"
                ∧ views.create_view
                  = λ request, views.delete request (int ds))).
Proof.
  apply (resolve_only_the_six_routes "/create/" views.create_view).
  reflexivity.
Defined.

(** Paths that are not routed: no final slash, a signed identifier, no
    identifier. *)
Example unrouted_paths :
  urls.resolve "/create" = None ∧ urls.resolve "/delete/-1/" = None
  ∧ urls.resolve "/update//" = None ∧ urls.resolve "/update/1" = None
  ∧ urls.resolve "" = None.
Proof. repeat split; reflexivity. Qed.

(** ** [views.py]: answers and effects of the handlers *)

Section answers.

(** The answers of [update_employee] on a record that exists. *)
Lemma update_employee_cases request pk old s :
  table s !! pk = Some old →
  views.update_employee request pk s
    = (Return (render request "update.html"
                 [("employee", instance (mkEmployee pk old))]), s)
  ∨ (∃ e, views.update_employee request pk s = (Raise e, s) ∧ e ≠ Http404)
  ∨ (∃ r, ¬ email_taken (base.delete pk (table s)) (email r)
          ∧ views.update_employee request pk s
            = (Return (redirect "/"),
               with_table s (<[pk := r]> (table s)))).
Proof.
  intros Hold. rewrite (update_employee_found _ _ _ _ Hold).
  destruct (String.eqb (method request) "POST"); [|by left].
  destruct (all_given (submitted request)); [|by left].
  right. unfold mbind, View_bind.
  destruct (save_cases (mkEmployee pk old) (submitted request) s)
    as [(e & -> & He)|(r & Hr & ->)].
  - left. eauto.
  - right. eauto.
Qed.

End answers.

(** X3.  "Not found" is the answer for identifiers that do not exist and
    for no others: [update_view], [update_employee] and [delete] raise
    [Http404] exactly when the store has no record with the identifier,
    whatever the request; [home], [create_view] and [create_employee] never
    raise it. *)
Theorem not_found_exactly_when_missing request pk s :
  ((views.update_view request pk s).1 = Raise Http404
   ↔ table s !! pk = None)
  ∧ ((views.update_employee request pk s).1 = Raise Http404
     ↔ table s !! pk = None)
  ∧ ((views.delete request pk s).1 = Raise Http404 ↔ table s !! pk = None)
  ∧ (views.home request s).1 ≠ Raise Http404
  ∧ (views.create_view request s).1 ≠ Raise Http404
  ∧ (views.create_employee request s).1 ≠ Raise Http404.
Proof.
  repeat split.
  - destruct (table s !! pk) as [old|] eqn:Hpk; [|done].
    by rewrite (update_view_found _ _ _ _ Hpk).
  - intros Hpk. by rewrite (update_view_missing _ _ _ Hpk).
  - destruct (table s !! pk) as [old|] eqn:Hpk; [|done].
    destruct (update_employee_cases request pk old s Hpk)
      as [-> | [(e & -> & He) | (r & _ & ->)]]; simpl; congruence.
  - intros Hpk. by rewrite (update_employee_missing _ _ _ Hpk).
  - destruct (table s !! pk) as [old|] eqn:Hpk; [|done].
    by rewrite (delete_found _ _ _ _ Hpk).
  - intros Hpk. by rewrite (delete_missing _ _ _ Hpk).
  - done.
  - done.
  - destruct (create_employee_cases request s)
      as [-> | [(e & -> & He) | (r & _ & ->)]]; simpl; congruence.
Qed.

(** X4.  The three display handlers only read: for every request, of any
    method and with any form data, [home], [create_view] and [update_view]
    leave the store as it is; [create_view] answers with the creation form
    and an empty context, and [update_view], on an identifier that exists,
    with the update form filled with the stored record. *)
Theorem display_handlers_only_read request pk s :
  (views.home request s).2 = s
  ∧ views.create_view request s
    = (Return (render request "create.html" []), s)
  ∧ (views.update_view request pk s).2 = s
  ∧ ∀ r, table s !! pk = Some r →
         views.update_view request pk s
         = (Return (render request "update.html"
                      [("employee", instance (mkEmployee pk r))]), s).
Proof.
  repeat split.
  - destruct (table s !! pk) as [old|] eqn:Hpk.
    + by rewrite (update_view_found _ _ _ _ Hpk).
    + by rewrite (update_view_missing _ _ _ Hpk).
  - intros r Hr. by apply update_view_found.
Qed.

(** X5.  A request that is not a POST changes the store through one route
    only: whatever path it is sent to, either the store is unchanged, or
    the path is a deletion route, the record it names existed and exactly
    that record was removed.  Deletion does not look at the method. *)
Theorem only_delete_acts_without_post path view request s :
  urls.resolve path = Some view →
  method request ≠ "POST" →
  (view request s).2 = s
  ∨ ∃ pk r, view = (λ request', views.delete request' pk)
            ∧ table s !! pk = Some r
            ∧ (view request s).2
              = with_table s (base.delete pk (table s)).
Proof.
  intros Hres Hmethod.
  destruct (resolve_only_the_six_routes_aux path view Hres)
    as [-> | [-> | [-> | [(n & ->) | [(n & ->) | (n & ->)]]]]].
  - by left.
  - by left.
  - left. rewrite create_employee_eq.
    by apply String.eqb_neq in Hmethod as ->.
  - left. destruct (table s !! n) as [old|] eqn:Hn.
    + by rewrite (update_view_found _ _ _ _ Hn).
    + by rewrite (update_view_missing _ _ _ Hn).
  - left. destruct (table s !! n) as [old|] eqn:Hn.
    + rewrite (update_employee_found _ _ _ _ Hn).
      by apply String.eqb_neq in Hmethod as ->.
    + by rewrite (update_employee_missing _ _ _ Hn).
  - destruct (table s !! n) as [old|] eqn:Hn.
    + right. exists n, old. by rewrite (delete_found _ _ _ _ Hn).
    + left. by rewrite (delete_missing _ _ _ Hn).
Qed.

(** The theorem at a GET of "/delete/1/" in the store of two records. *)
Lemma only_delete_acts_without_post_witness :
  let view := λ request', views.delete request' 1 in
  let s := two_rows false in
  (view get s).2 = s
  ∨ ∃ pk r, view = (λ request', views.delete request' pk)
            ∧ table s !! pk = Some r
            ∧ (view get s).2 = with_table s (base.delete pk (table s)).
Proof.
  apply (only_delete_acts_without_post "/delete/1/"
           (λ request', views.delete request' 1) get (two_rows false));
    [reflexivity | discriminate].
Defined.

(** X6.  A request touches at most one record: whatever path and request,
    there is an identifier such that the records under every other
    identifier are the same before and after, and the number of records
    changes by at most one. *)
Theorem a_request_touches_one_record path view request s :
  urls.resolve path = Some view →
  let s' := (view request s).2 in
  (∃ pk, ∀ k, k ≠ pk → table s' !! k = table s !! k)
  ∧ (size (table s') ≤ S (size (table s)))%nat
  ∧ (size (table s) ≤ S (size (table s')))%nat.
Proof.
  intros Hres s'. subst s'.
  destruct (resolve_effect path view request s Hres)
    as [|r Hr|pk r [old Hold] Hr|pk]; simpl.
  - split; [by exists 0|]. lia.
  - split.
    + exists (sequence s + 1). intros k Hk. by rewrite lookup_insert_ne.
    + rewrite map_size_insert.
      destruct (table s !! (sequence s + 1)); simpl; lia.
  - split.
    + exists pk. intros k Hk. by rewrite lookup_insert_ne.
    + rewrite map_size_insert, Hold. simpl. lia.
  - split.
    + exists pk. intros k Hk. by rewrite lookup_delete_ne.
    + rewrite map_size_delete. destruct (table s !! pk); simpl; lia.
Qed.

(** The theorem at Alan's creation in the store that holds Ada. *)
Lemma a_request_touches_one_record_witness :
  let request := post "Alan" "Turing" "alan@x.com" "Fellow" "1936-05-28" in
  let s := one_row true in
  let s' := (views.create_employee request s).2 in
  (∃ pk, ∀ k, k ≠ pk → table s' !! k = table s !! k)
  ∧ (size (table s') ≤ S (size (table s)))%nat
  ∧ (size (table s) ≤ S (size (table s')))%nat.
Proof.
  apply (a_request_touches_one_record "/create_employee/"
           views.create_employee
           (post "Alan" "Turing" "alan@x.com" "Fellow" "1936-05-28")
           (one_row true)).
  reflexivity.
Defined.

(** ** What is stored *)

Section written.

Lemma to_python_calendar hd d :
  DateField_to_python hd = Some d → calendar_date d.
Proof.
  unfold DateField_to_python.
  destruct (date_re_match hd) as [[[y m] dd]|]; [|done].
  unfold datetime_date. case_match eqn:Hc; [|done]. intros [= <-].
  rewrite !andb_true_iff, !Z.leb_le in Hc. unfold calendar_date. simpl. lia.
Qed.

Lemma prepare_stored request s r :
  all_given (submitted request) = true →
  prepare (submitted request) s = (Return r, s) → stored_as request r.
Proof.
  intros (fn & ln & em & pos & hd & Hsub)%given_submits.
  pose proof Hsub as (Hv & _). rewrite Hv. unfold prepare. simpl.
  destruct (DateField_to_python hd) as [d|] eqn:Hd; [|done].
  intros [= <-]. by exists hd.
Qed.

Lemma stored_as_well_formed request r : stored_as request r → well_formed r.
Proof.
  intros (hd & (_ & ? & ? & ? & ? & _) & Hd).
  unfold well_formed. split_and!; try done. by eapply to_python_calendar.
Qed.

Lemma objects_create_written v s :
  (objects_create v s).2 = s
  ∨ ∃ r, prepare v s = (Return r, s) ∧ (objects_create v s).2 = inserted s r.
Proof.
  unfold objects_create, mbind, View_bind.
  destruct (prepare_cases v s)
    as [(e & -> & He)|(fn & ln & em & pos & hd & d & _ & _ & ->)];
    [by left|].
  destruct (check_widths_cases s (mkRow fn ln em pos d)) as [-> | ->];
    [|by left].
  simpl. case_bool_decide; [by left|]. right. eauto.
Qed.

Lemma save_written self v s :
  (save self v s).2 = s
  ∨ ∃ r, prepare v s = (Return r, s)
         ∧ (save self v s).2 = with_table s (<[id self := r]> (table s)).
Proof.
  unfold save, mbind, View_bind.
  destruct (prepare_cases v s)
    as [(e & -> & He)|(fn & ln & em & pos & hd & d & _ & _ & ->)];
    [by left|].
  destruct (check_widths_cases s (mkRow fn ln em pos d)) as [-> | ->];
    [|by left].
  simpl. case_bool_decide; [by left|]. right. eauto.
Qed.

(** What the two submission handlers write is what was submitted. *)
Lemma create_employee_writes request s :
  (views.create_employee request s).2 = s
  ∨ ∃ r, stored_as request r
         ∧ (views.create_employee request s).2 = inserted s r.
Proof.
  rewrite create_employee_eq.
  destruct (String.eqb (method request) "POST"); [|by left].
  destruct (all_given (submitted request)) eqn:Hall; [|by left].
  unfold mbind, View_bind.
  destruct (objects_create_written (submitted request) s)
    as [Hsame | (r & Hr & Hins)].
  - left. destruct (objects_create (submitted request) s) as [[?|?] ?]; done.
  - right. exists r. split; [by eapply prepare_stored|].
    destruct (objects_create (submitted request) s) as [[?|?] ?]; done.
Qed.

Lemma update_employee_writes request pk s :
  (views.update_employee request pk s).2 = s
  ∨ ∃ r, stored_as request r
         ∧ (views.update_employee request pk s).2
           = with_table s (<[pk := r]> (table s)).
Proof.
  destruct (table s !! pk) as [old|] eqn:Hpk;
    [|left; by rewrite (update_employee_missing _ _ _ Hpk)].
  rewrite (update_employee_found _ _ _ _ Hpk).
  destruct (String.eqb (method request) "POST"); [|by left].
  destruct (all_given (submitted request)) eqn:Hall; [|by left].
  unfold mbind, View_bind.
  destruct (save_written (mkEmployee pk old) (submitted request) s)
    as [Hsame | (r & Hr & Hins)].
  - left.
    destruct (save (mkEmployee pk old) (submitted request) s) as [[?|?] ?];
      done.
  - right. exists r. split; [by eapply prepare_stored|].
    destruct (save (mkEmployee pk old) (submitted request) s) as [[?|?] ?];
      done.
Qed.

End written.

(** X7.  No incomplete record is ever stored: in every store that requests
    can produce, every record has a non-empty first name, last name,
    address and position, and its hire date is a calendar date (a year from
    1 to 9999, a month from 1 to 12, a day of that month). *)
Theorem stored_records_are_well_formed s :
  reachable s → map_Forall (λ _ r, well_formed r) (table s).
Proof.
  induction 1 as [strict|s path view request _ IH Hres].
  - apply map_Forall_empty.
  - destruct (resolve_only_the_six_routes_aux path view Hres)
      as [-> | [-> | [-> | [(n & ->) | [(n & ->) | (n & ->)]]]]].
    + done.
    + done.
    + destruct (create_employee_writes request s) as [-> | (r & Hr & ->)];
        [done|]. simpl.
      apply map_Forall_insert_2; [by eapply stored_as_well_formed | done].
    + destruct (table s !! n) as [old|] eqn:Hn.
      * by rewrite (update_view_found _ _ _ _ Hn).
      * by rewrite (update_view_missing _ _ _ Hn).
    + destruct (update_employee_writes request n s) as [-> | (r & Hr & ->)];
        [done|]. simpl.
      apply map_Forall_insert_2; [by eapply stored_as_well_formed | done].
    + destruct (table s !! n) as [old|] eqn:Hn.
      * rewrite (delete_found _ _ _ _ Hn). simpl. by apply map_Forall_delete.
      * by rewrite (delete_missing _ _ _ Hn).
Qed.

(** The theorem at the store of two records. *)
Lemma stored_records_are_well_formed_witness :
  map_Forall (λ _ r, well_formed r) (table (two_rows true)).
Proof.
  apply (stored_records_are_well_formed (two_rows true)).
  apply reachable_two_rows.
Defined.

(** ** How the operations compose *)

Section composition.


(** In a store with distinct addresses, the address of a record is used by
    no other record. *)
Lemma own_address_is_free s pk old :
  emails_unique s → table s !! pk = Some old →
  ¬ email_taken (base.delete pk (table s)) (email old).
Proof.
  intros Hu Hold (j & rj & Hj & Heq).
  apply lookup_delete_Some in Hj as [Hne Hj].
  apply Hne. symmetry. by eapply Hu.
Qed.

Lemma update_employee_saved request s pk old fn ln em pos hd d :
  table s !! pk = Some old →
  method request = "POST" →
  submits request fn ln em pos hd →
  DateField_to_python hd = Some d →
  widths_accepted s (mkRow fn ln em pos d) →
  ¬ email_taken (base.delete pk (table s)) em →
  views.update_employee request pk s
  = (Return (redirect "/"),
     with_table s (<[pk := mkRow fn ln em pos d]> (table s))).
Proof.
  intros Hold Hpost Hsub Hd Hw Hfree.
  rewrite (update_employee_found _ _ _ _ Hold), Hpost. simpl.
  rewrite (all_given_submits _ _ _ _ _ _ Hsub).
  destruct Hsub as (-> & _). unfold mbind, View_bind.
  rewrite (save_ok _ _ (mkRow fn ln em pos d) s);
    [done | by apply prepare_ok | done..].
Qed.

Lemma create_employee_saved request s fn ln em pos hd d :
  method request = "POST" →
  submits request fn ln em pos hd →
  DateField_to_python hd = Some d →
  widths_accepted s (mkRow fn ln em pos d) →
  ¬ email_taken (table s) em →
  views.create_employee request s
  = (Return (redirect "/"), inserted s (mkRow fn ln em pos d)).
Proof.
  intros Hpost Hsub Hd Hw Hfree.
  rewrite create_employee_eq, Hpost. simpl.
  rewrite (all_given_submits _ _ _ _ _ _ Hsub).
  destruct Hsub as (-> & _). unfold mbind, View_bind.
  rewrite (objects_create_ok _ (mkRow fn ln em pos d) s);
    [done | by apply prepare_ok | done..].
Qed.

End composition.

(** X8.  An update cannot take the address of another record: for every
    existing identifier, a POST of five non-empty values that are
    acceptable to the columns but whose address is that of a different
    record ends in [IntegrityError], which the handler does not catch (a
    server error for the client), and the store is unchanged. *)
Theorem update_employee_address_in_use request s pk old fn ln em pos hd d :
  table s !! pk = Some old →
  method request = "POST" →
  submits request fn ln em pos hd →
  DateField_to_python hd = Some d →
  widths_accepted s (mkRow fn ln em pos d) →
  email_taken (base.delete pk (table s)) em →
  views.update_employee request pk s = (Raise IntegrityError, s)
  ∧ status_code (views.update_employee request pk s).1 = 500.
Proof.
  intros Hold Hpost Hsub Hd Hw Htaken.
  assert (views.update_employee request pk s = (Raise IntegrityError, s))
    as ->; [|done].
  rewrite (update_employee_found _ _ _ _ Hold), Hpost. simpl.
  rewrite (all_given_submits _ _ _ _ _ _ Hsub).
  destruct Hsub as (-> & _). unfold mbind, View_bind.
  rewrite (save_taken _ _ (mkRow fn ln em pos d) s);
    [done | by apply prepare_ok | done..].
Qed.

(** The theorem at an update of Alan (2) to Ada's address. *)
Lemma update_employee_address_in_use_witness :
  let request := post "Alan" "Turing" "ada@x.com" "Fellow" "1936-05-28" in
  let s := two_rows true in
  views.update_employee request 2 s = (Raise IntegrityError, s)
  ∧ status_code (views.update_employee request 2 s).1 = 500.
Proof.
  apply (update_employee_address_in_use
           (post "Alan" "Turing" "ada@x.com" "Fellow" "1936-05-28")
           (two_rows true) 2 alan_row "Alan" "Turing" "ada@x.com" "Fellow"
           "1936-05-28" (mkdate 1936 5 28)).
  - reflexivity.
  - reflexivity.
  - by apply submits_post.
  - reflexivity.
  - intros _. reflexivity.
  - apply (bool_decide_eq_true_1 _). reflexivity.
Defined.

(** X9.  An accepted update is idempotent: when a POST to
    [update_employee] is accepted, the same POST sent again to the same
    identifier is accepted again and leaves the store exactly as the first
    one left it. *)
Theorem update_employee_twice request s pk old fn ln em pos hd d :
  table s !! pk = Some old →
  method request = "POST" →
  submits request fn ln em pos hd →
  DateField_to_python hd = Some d →
  widths_accepted s (mkRow fn ln em pos d) →
  ¬ email_taken (base.delete pk (table s)) em →
  let s1 := (views.update_employee request pk s).2 in
  (views.update_employee request pk s).1 = Return (redirect "/")
  ∧ views.update_employee request pk s1 = (Return (redirect "/"), s1).
Proof.
  intros Hold Hpost Hsub Hd Hw Hfree s1. subst s1.
  rewrite (update_employee_saved _ _ _ _ _ _ _ _ _ _
             Hold Hpost Hsub Hd Hw Hfree). simpl.
  split; [done|].
  set (r := mkRow fn ln em pos d).
  rewrite (update_employee_saved request _ pk r fn ln em pos hd d);
    try done.
  - unfold with_table. simpl. by rewrite insert_insert_eq.
  - simpl. apply lookup_insert_eq.
  - simpl. by rewrite delete_insert_eq.
Qed.

(** The theorem at the update of Ada's position. *)
Lemma update_employee_twice_witness :
  let request :=
    post "Ada" "Lovelace" "ada@x.com" "Senior Engineer" "1975-01-01" in
  let s1 := (views.update_employee request 1 (two_rows false)).2 in
  (views.update_employee request 1 (two_rows false)).1
    = Return (redirect "/")
  ∧ views.update_employee request 1 s1 = (Return (redirect "/"), s1).
Proof.
  apply (update_employee_twice
           (post "Ada" "Lovelace" "ada@x.com" "Senior Engineer" "1975-01-01")
           (two_rows false) 1 ada_row "Ada" "Lovelace" "ada@x.com"
           "Senior Engineer" "1975-01-01" (mkdate 1975 1 1)).
  - reflexivity.
  - reflexivity.
  - by apply submits_post.
  - reflexivity.
  - intros Hstrict. discriminate Hstrict.
  - apply (bool_decide_eq_false_1 _). reflexivity.
Defined.



(** X11.  Deletion undoes creation: in a store whose keys were issued by
    the sequence, after an accepted creation the deletion of the new
    identifier, by any request, is answered with a redirect and gives back
    the table as it was before the creation. *)
Theorem delete_undoes_create request request' s fn ln em pos hd d :
  method request = "POST" →
  submits request fn ln em pos hd →
  DateField_to_python hd = Some d →
  widths_accepted s (mkRow fn ln em pos d) →
  ¬ email_taken (table s) em →
  keys_issued s →
  let s1 := (views.create_employee request s).2 in
  let s2 := (views.delete request' (sequence s + 1) s1).2 in
  (views.create_employee request s).1 = Return (redirect "/")
  ∧ (views.delete request' (sequence s + 1) s1).1 = Return (redirect "/")
  ∧ table s2 = table s.
Proof.
  intros Hpost Hsub Hd Hw Hfree Hk s1 s2. subst s1 s2.
  rewrite (create_employee_saved _ _ _ _ _ _ _ _ Hpost Hsub Hd Hw Hfree).
  simpl. split; [done|].
  rewrite (delete_found request' (sequence s + 1) (mkRow fn ln em pos d));
    [|simpl; apply lookup_insert_eq].
  simpl. split; [done|].
  rewrite delete_insert_eq. apply delete_id. by apply fresh_key.
Qed.

(** The theorem at Alan's creation in the store that holds Ada, undone by
    a GET. *)
Lemma delete_undoes_create_witness :
  let request := post "Alan" "Turing" "alan@x.com" "Fellow" "1936-05-28" in
  let s := one_row true in
  let s1 := (views.create_employee request s).2 in
  let s2 := (views.delete get (sequence s + 1) s1).2 in
  (views.create_employee request s).1 = Return (redirect "/")
  ∧ (views.delete get (sequence s + 1) s1).1 = Return (redirect "/")
  ∧ table s2 = table s.
Proof.
  apply (delete_undoes_create
           (post "Alan" "Turing" "alan@x.com" "Fellow" "1936-05-28") get
           (one_row true) "Alan" "Turing" "alan@x.com" "Fellow"
           "1936-05-28" (mkdate 1936 5 28)).
  - reflexivity.
  - by apply submits_post.
  - reflexivity.
  - intros _. reflexivity.
  - apply (bool_decide_eq_false_1 _). reflexivity.
  - apply reachable_invariant, reachable_one_row.
Defined.

(** X12.  Deletion frees the address: in a store with distinct addresses,
    a creation that submits the address of an existing record, with values
    otherwise acceptable, is refused with [IntegrityError]; once that
    record is deleted, the same creation is accepted and stores the
    submitted values. *)
Theorem deleted_address_can_be_reused request request' s pk old
    fn ln pos hd d :
  emails_unique s →
  table s !! pk = Some old →
  method request = "POST" →
  submits request fn ln (email old) pos hd →
  DateField_to_python hd = Some d →
  widths_accepted s (mkRow fn ln (email old) pos d) →
  let s1 := (views.delete request' pk s).2 in
  views.create_employee request s = (Raise IntegrityError, s)
  ∧ views.create_employee request s1
    = (Return (redirect "/"), inserted s1 (mkRow fn ln (email old) pos d)).
Proof.
  intros Hu Hold Hpost Hsub Hd Hw s1. subst s1. split.
  - rewrite create_employee_eq, Hpost. simpl.
    rewrite (all_given_submits _ _ _ _ _ _ Hsub).
    destruct Hsub as (-> & _). unfold mbind, View_bind.
    rewrite (objects_create_taken _ (mkRow fn ln (email old) pos d) s);
      [done | by apply prepare_ok | done |].
    simpl. by exists pk, old.
  - rewrite (delete_found _ _ _ _ Hold). simpl.
    apply (create_employee_saved request _ fn ln (email old) pos hd d);
      try done.
    simpl. by apply own_address_is_free.
Qed.

(** The theorem at a second Ada, before and after the first is deleted. *)
Lemma deleted_address_can_be_reused_witness :
  let request := post "Ada" "Byron" "ada@x.com" "Analyst" "1833-06-05" in
  let s := two_rows true in
  let s1 := (views.delete get 1 s).2 in
  views.create_employee request s = (Raise IntegrityError, s)
  ∧ views.create_employee request s1
    = (Return (redirect "/"),
       inserted s1 (mkRow "Ada" "Byron" "ada@x.com" "Analyst"
                          (mkdate 1833 6 5))).
Proof.
  apply (deleted_address_can_be_reused
           (post "Ada" "Byron" "ada@x.com" "Analyst" "1833-06-05") get
           (two_rows true) 1 ada_row "Ada" "Byron" "Analyst" "1833-06-05"
           (mkdate 1833 6 5)).
  - apply reachable_invariant, reachable_two_rows.
  - reflexivity.
  - reflexivity.
  - by apply submits_post.
  - reflexivity.
  - intros _. reflexivity.
Defined.

(** ** [models.py]: the display name *)

Section display_name.

Lemma append_nil b : "" ++ b = b.
Proof. done. Qed.

Lemma append_cons c a b : String c a ++ b = String c (a ++ b).
Proof. done. Qed.

Lemma full_name_inj a : ∀ a' b b',
  no_space a = true → no_space a' = true →
  a ++ " " ++ b = a' ++ " " ++ b' → a = a' ∧ b = b'.
Proof.
  induction a as [|c a IH]; intros [|c' a'] b b' Ha Ha' Heq;
    rewrite ?append_nil, ?append_cons, ?append_nil in Heq.
  - by injection Heq as ->.
  - injection Heq as <- _. simpl in Ha'. done.
  - injection Heq as -> _. simpl in Ha. done.
  - injection Heq as -> Heq. simpl in Ha, Ha'.
    apply andb_true_iff in Ha as [_ Ha], Ha' as [_ Ha'].
    destruct (IH a' b b' Ha Ha' Heq) as [-> ->]. done.
Qed.

End display_name.

(** X13.  [__str__] is the first name, a space and the last name.  Among
    employees whose first names contain no space, the display name tells
    the names apart: two employees with the same display name have the same
    first name and the same last name. *)
Theorem display_name_determines_names (e e' : Employee) :
  no_space (first_name (row e)) = true →
  no_space (first_name (row e')) = true →
  __str__ e = __str__ e' →
  first_name (row e) = first_name (row e')
  ∧ last_name (row e) = last_name (row e').
Proof. intros Hs Hs' Heq. by apply full_name_inj. Qed.

(** The theorem at Ada's record under two identifiers. *)
Lemma display_name_determines_names_witness :
  first_name (row (mkEmployee 1 ada_row))
    = first_name (row (mkEmployee 7 ada_row))
  ∧ last_name (row (mkEmployee 1 ada_row))
    = last_name (row (mkEmployee 7 ada_row)).
Proof.
  apply (display_name_determines_names
           (mkEmployee 1 ada_row) (mkEmployee 7 ada_row));
    reflexivity.
Defined.

(** Without the condition the display name is ambiguous, and the example of
    the docstring. *)
Example display_name_examples :
  __str__ (mkEmployee 1 (mkRow "Mary Ann" "Evans" "m@x.com" "Editor"
                               (mkdate 1851 1 1)))
  = __str__ (mkEmployee 2 (mkRow "Mary" "Ann Evans" "g@x.com" "Author"
                                 (mkdate 1859 1 1)))
  ∧ __str__ (mkEmployee 3 (mkRow "John" "Doe" "j@x.com" "Clerk"
                                 (mkdate 2000 1 1))) = "John Doe".
Proof. split; reflexivity. Qed.

(** ** What the submission handlers write *)

